(** * json2video: the asynchronous rendering pipeline

    A shallow embedding of the Node/TypeScript service: request validation
    (validation/index.ts), the [POST /create-video] route (routes/index.ts)
    and the queue worker (queue/index.ts), with the properties of the
    design document stated against it.

    Conventions.
    - JavaScript numbers that the code uses as pixel counts are integers
      ([Z]); the other numeric request fields ([framerate], [duration],
      [zoom]) are exact rationals ([Q]).  Rendering such a number as text is
      the platform's [Number.prototype.toString]; for integers it is the
      decimal numeral ([Z_toString]), for the rational fields it is a
      parameter of the development ([Number_toString]).
    - [async] functions are sequential here: every [await] is a point where
      an external collaborator (HTTP client, child process, file system)
      answers, and the answer is read from an explicit environment record.
    - A JavaScript [throw] is the [Throw] constructor of [Completion]. *)

From Stdlib Require Import ZArith QArith Qabs Qround String Ascii List Lia DecimalString.
From stdpp Require Import base gmap strings list.

Set Warnings "-clear-no-such-hyp".

Local Open Scope Z_scope.
Local Open Scope string_scope.
Local Open Scope list_scope.

(** ** Platform primitives *)

(** Template-literal rendering of an integer-valued number. *)
Definition Z_toString (z : Z) : string := NilZero.string_of_int (Z.to_int z).

(** [String.prototype.includes]. *)
Definition includes (needle hay : string) : bool :=
  match String.index 0 needle hay with
  | Some _ => true
  | None => false
  end.

(** [Array.prototype.includes] on an array of strings. *)
Definition array_includes (arr : list string) (x : string) : bool :=
  existsb (String.eqb x) arr.

(** [path.join] of a directory and a file name (POSIX). *)
Definition path_join (dir name : string) : string := dir +:+ "/" +:+ name.

(** Strict comparison of JavaScript numbers, on rationals. *)
Definition Qlt_bool (x y : Q) : bool := negb (Qle_bool y x).

(** A JavaScript [Error] carries its message. *)
Inductive JsError : Type :=
| Error (message : string).

(** The outcome of evaluating a block: a value, or a thrown error. *)
Inductive Completion (A : Type) : Type :=
| Normal (a : A)
| Throw (e : JsError).
Arguments Normal {A} a.
Arguments Throw {A} e.

(** [try { body } catch { handler }]. *)
Definition try_catch {A} (body : Completion A) (handler : JsError -> Completion A)
  : Completion A :=
  match body with
  | Normal a => Normal a
  | Throw e => handler e
  end.

(** ** types/index.ts *)

Module Types.

(** [VideoProcessingData extends VideoRequest]: the job payload as the
    worker reads it. *)
Record VideoProcessingData : Type := {
  record_id : string;
  input_url : string;
  webhook_url : option string;
  framerate : Q;
  duration : Q;
  cache : bool;
  zoom : Q;
  crop : bool;
  output_width : Z;
  output_height : Z;
  input_width : Z;
  input_height : Z;
  request_host : string;
  cached_input_file : string;
  output_file : string
}.

Record WebhookPayload : Type := {
  wp_record_id : string;
  wp_filename : string
}.

End Types.
Export Types.

(** ** config/index.ts *)

Record Config : Type := {
  cacheDir : string;
  moviesDir : string;
  scheme : string;
  publicPort : string;
  allowedDomains : list string;
  allowedIPs_LOCAL : list string;
  allowedIPs_MAKE_US1 : list string;
  allowedIPs_MAKE_EU2 : list string;
  allowedIPs_MAKE_EU1 : list string
}.

(** The configuration obtained when no environment variable is set. *)
Definition default_config : Config := {|
  cacheDir := "cache";
  moviesDir := "movies";
  scheme := "https";
  publicPort := "80";
  allowedDomains := ["example.com"; "trusted.com"];
  allowedIPs_LOCAL := ["localhost"];
  allowedIPs_MAKE_US1 := ["54.209.79.175"; "54.80.47.193"; "54.161.178.114"];
  allowedIPs_MAKE_EU2 := ["34.254.1.9"; "52.31.156.93"; "52.50.32.186"];
  allowedIPs_MAKE_EU1 := ["54.75.157.176"; "54.78.149.203"; "52.18.144.195"]
|}.

(** ** queue/index.ts: the filter chain (createVideoTask, lines 52-88) *)

Section FilterChain.

(** [Number.prototype.toString] on the rational request fields. *)
Variable Number_toString : Q -> string.

(** [input_width !== output_width || input_height !== output_height] *)
Definition dimensions_differ (data : VideoProcessingData) : bool :=
  negb (Z.eqb (input_width data) (output_width data))
  || negb (Z.eqb (input_height data) (output_height data)).

(** Lines 54-58: the crop rectangle [(cropWidth, cropHeight, cropX, cropY)],
    computed only under the guard of line 54. *)
Definition cropRegion (data : VideoProcessingData) : option (Z * Z * Z * Z) :=
  if crop data && dimensions_differ data then
    let cropWidth := Z.min (input_width data) (output_width data) in
    let cropHeight := Z.min (input_height data) (output_height data) in
    let cropX := (input_width data - cropWidth) / 2 in
    let cropY := (input_height data - cropHeight) / 2 in
    Some (cropWidth, cropHeight, cropX, cropY)
  else None.

(** Lines 53-60. *)
Definition cropFilter (data : VideoProcessingData) : string :=
  match cropRegion data with
  | Some (cropWidth, cropHeight, cropX, cropY) =>
      ",crop=" +:+ Z_toString cropWidth +:+ ":" +:+ Z_toString cropHeight
      +:+ ":" +:+ Z_toString cropX +:+ ":" +:+ Z_toString cropY
  | None => ""
  end.

(** Lines 62-65. The backslash of the source's [\\,] is kept. *)
Definition padFilter (data : VideoProcessingData) : string :=
  if negb (crop data) && dimensions_differ data then
    let ow := Z_toString (output_width data) in
    let oh := Z_toString (output_height data) in
    ",scale=w=min(" +:+ ow +:+ "/iw\," +:+ oh +:+ "/ih)*iw:h=-2,scale="
    +:+ ow +:+ ":" +:+ oh +:+ ":force_original_aspect_ratio=decrease,pad="
    +:+ ow +:+ ":" +:+ oh +:+ ":(ow-iw)/2:(oh-ih)/2"
  else "".

(** Line 70: [(zoom / 100) * maxZoomRate] with [maxZoomRate = 0.1]. *)
Definition normalizedZoom (data : VideoProcessingData) : Q :=
  ((zoom data / 100) * (1 # 10))%Q.

(** Lines 67-76. *)
Definition zoomFilter (data : VideoProcessingData) : string :=
  if negb (Qeq_bool (zoom data) 0) then
    if Qlt_bool 0 (zoom data) then
      ",zoompan=z='min(zoom+" +:+ Number_toString (normalizedZoom data)
      +:+ ",2)':d=1"
    else
      ",zoompan=z='max(zoom-" +:+ Number_toString (Qabs (normalizedZoom data))
      +:+ ",1)':d=1"
  else "".

(** The argument of [-vf] on line 83. *)
Definition videoFilter (data : VideoProcessingData) : string :=
  "format=yuv420p" +:+ cropFilter data +:+ padFilter data
  +:+ ",scale=" +:+ Z_toString (output_width data) +:+ ":"
  +:+ Z_toString (output_height data).

(** Lines 79-88. *)
Definition ffmpegCommand (data : VideoProcessingData) : list string :=
  [ "ffmpeg";
    "-loop"; "1";
    "-i"; cached_input_file data;
    "-vf"; videoFilter data;
    "-t"; Number_toString (duration data);
    "-pix_fmt"; "yuv420p";
    "-r"; Number_toString (framerate data);
    output_file data ].

End FilterChain.

(** ** validation/index.ts *)

(** A value of a parsed JSON body. Arrays and nested objects never satisfy
    any rule of the schema below and are kept opaque. *)
Inductive JsValue : Type :=
| JNull
| JBool (b : bool)
| JNum (q : Q)
| JStr (s : string)
| JOther.

(** A parsed JSON object; a missing key reads as [undefined] ([None]). *)
Abbreviation JsObject := (gmap string JsValue).

(** The character class [[0-9a-zA-Z]]. *)
Definition is_alnum (c : ascii) : bool :=
  let n := nat_of_ascii c in
  ((48 <=? n) && (n <=? 57) || (65 <=? n) && (n <=? 90)
   || (97 <=? n) && (n <=? 122))%nat.

Fixpoint all_chars (p : ascii -> bool) (s : string) : bool :=
  match s with
  | EmptyString => true
  | String c s' => p c && all_chars p s'
  end.

(** The regular expression [/^[0-9a-zA-Z]+$/]. *)
Definition alnum_plus (s : string) : bool :=
  negb (String.eqb s "") && all_chars is_alnum s.

(** [String.prototype.toLowerCase] on ASCII letters. *)
Definition lower_char (c : ascii) : ascii :=
  let n := nat_of_ascii c in
  if ((65 <=? n) && (n <=? 90))%nat then ascii_of_nat (n + 32) else c.

Fixpoint toLowerCase (s : string) : string :=
  match s with
  | EmptyString => EmptyString
  | String c s' => String (lower_char c) (toLowerCase s')
  end.

Module Joi.

(** The error codes ([details[0].type]) the schema can produce. *)
Inductive Code : Type :=
| any_required
| string_base | string_empty | string_alphanum | string_uri
| number_base | number_unsafe | number_positive | number_max | number_min
| number_integer
| boolean_base
| object_unknown.

Inductive Base : Type := string_ | number_ | boolean_.

Inductive Rule : Type :=
| Alphanum
| Uri
| Positive
| Max (limit : Q)
| Min (limit : Q)
| Integer.

(** A schema is a base type, the rules chained on it in call order, and
    its presence flag. *)
Record Schema : Type := {
  base : Base;
  rules : list Rule;
  is_required : bool
}.

Definition string : Schema := {| base := string_; rules := []; is_required := false |}.
Definition number : Schema := {| base := number_; rules := []; is_required := false |}.
Definition boolean : Schema := {| base := boolean_; rules := []; is_required := false |}.

Definition add_rule (r : Rule) (s : Schema) : Schema :=
  {| base := base s; rules := rules s ++ [r]; is_required := is_required s |}.

Definition alphanum := add_rule Alphanum.
Definition uri := add_rule Uri.
Definition positive := add_rule Positive.
Definition max (limit : Q) := add_rule (Max limit).
Definition min (limit : Q) := add_rule (Min limit).
Definition integer := add_rule Integer.

Definition required (s : Schema) : Schema :=
  {| base := base s; rules := rules s; is_required := true |}.
Definition optional (s : Schema) : Schema :=
  {| base := base s; rules := rules s; is_required := false |}.

(** [Number.MAX_SAFE_INTEGER]. *)
Definition MAX_SAFE_INTEGER : Q := inject_Z (2 ^ 53 - 1).

Section Validate.

(** The library's RFC 3986 test behind [string().uri()]. *)
Variable isUri : String.string -> bool.
(** The library's conversion of a numeric string (default [convert]
    mode); [None] when the string is not a number. *)
Variable number_of_string : String.string -> option Q.

(** The number a [number()] schema reads from a value. *)
Definition as_number (v : JsValue) : option Q :=
  match v with
  | JNum q => Some q
  | JStr s => number_of_string s
  | _ => None
  end.

(** The boolean a [boolean()] schema reads from a value. *)
Definition as_boolean (v : JsValue) : option bool :=
  match v with
  | JBool b => Some b
  | JStr s =>
      let normalized := toLowerCase s in
      if String.eqb normalized "true" then Some true
      else if String.eqb normalized "false" then Some false
      else None
  | _ => None
  end.

Definition check_string_rule (r : Rule) (s : String.string) : option Code :=
  match r with
  | Alphanum => if alnum_plus s then None else Some string_alphanum
  | Uri => if isUri s then None else Some string_uri
  | _ => None
  end.

Definition check_number_rule (r : Rule) (q : Q) : option Code :=
  match r with
  | Positive => if Qlt_bool 0 q then None else Some number_positive
  | Max limit => if Qle_bool q limit then None else Some number_max
  | Min limit => if Qle_bool limit q then None else Some number_min
  | Integer => if Z.eqb (Zpos (Qden (Qred q))) 1 then None else Some number_integer
  | _ => None
  end.

(** The first rule that fails, in chain order. *)
Fixpoint first_failure {A} (check : Rule -> A -> option Code)
         (rs : list Rule) (a : A) : option Code :=
  match rs with
  | [] => None
  | r :: rs' =>
      match check r a with
      | Some c => Some c
      | None => first_failure check rs' a
      end
  end.

(** Validation of one key's value; [None] means the value passes. *)
Definition validate_value (sch : Schema) (v : option JsValue) : option Code :=
  match v with
  | None => if is_required sch then Some any_required else None
  | Some v =>
      match base sch with
      | string_ =>
          match v with
          | JStr s =>
              if String.eqb s "" then Some string_empty
              else first_failure check_string_rule (rules sch) s
          | _ => Some string_base
          end
      | number_ =>
          match as_number v with
          | Some q =>
              if Qlt_bool MAX_SAFE_INTEGER q || Qlt_bool q (- MAX_SAFE_INTEGER)
              then Some number_unsafe
              else first_failure check_number_rule (rules sch) q
          | None => Some number_base
          end
      | boolean_ =>
          match as_boolean v with
          | Some _ => None
          | None => Some boolean_base
          end
      end
  end.

(** [details[0]]: the offending key and the code. *)
Record ValidationErrorItem : Type := {
  path : String.string;
  code : Code
}.

(** The keys of an object schema, validated in declaration order with
    [abortEarly]. *)
Fixpoint validate_keys (keys : list (String.string * Schema)) (data : JsObject)
  : option ValidationErrorItem :=
  match keys with
  | [] => None
  | (k, sch) :: keys' =>
      match validate_value sch (data !! k) with
      | Some c => Some {| path := k; code := c |}
      | None => validate_keys keys' data
      end
  end.

(** Keys of the value that the schema does not declare. *)
Definition unknown_keys (keys : list (String.string * Schema)) (data : JsObject)
  : list String.string :=
  filter (fun k => k ∉ (fst <$> keys)) (elements (dom data)).

(** [Joi.object(keys).validate(data)]: the declared keys first, then the
    check for undeclared keys (the library reports the first such key in
    property order; here the first of [unknown_keys]). *)
Definition object_validate (keys : list (String.string * Schema)) (data : JsObject)
  : option ValidationErrorItem :=
  match validate_keys keys data with
  | Some e => Some e
  | None =>
      match unknown_keys keys data with
      | k :: _ => Some {| path := k; code := object_unknown |}
      | [] => None
      end
  end.

End Validate.

End Joi.

(** Method chaining: [Joi.string().alphanum().required()] is written
    [Joi.string |> Joi.alphanum |> Joi.required]. *)
Notation "s |> f" := (f s) (at level 45, left associativity, only parsing).

(** The result of [new URL(url)]: the two properties the code reads. *)
Record URL : Type := {
  protocol : string;
  hostname : string
}.

Record ValidationResult : Type := {
  isValid : bool;
  error : option Joi.ValidationErrorItem
}.

Section Validation.

Variable config : Config.
(** The platform's WHATWG URL parser; it throws on an unparseable string. *)
Variable URL_new : string -> Completion URL.
Variable isUri : string -> bool.
Variable number_of_string : string -> option Q.

(** Lines 10-21. *)
Definition videoRequestSchema : list (string * Joi.Schema) :=
  Eval cbv in
  ([ ("record_id", Joi.string |> Joi.alphanum |> Joi.required);
    ("input_url", Joi.string |> Joi.uri |> Joi.required);
    ("webhook_url", Joi.string |> Joi.uri |> Joi.optional);
    ("framerate", Joi.number |> Joi.positive |> Joi.required);
    ("duration", Joi.number |> Joi.positive |> Joi.max 60 |> Joi.required);
    ("cache", Joi.boolean |> Joi.required);
    ("zoom", Joi.number |> Joi.min (-100) |> Joi.max 100 |> Joi.required);
    ("crop", Joi.boolean |> Joi.required);
    ("output_width", Joi.number |> Joi.positive |> Joi.integer |> Joi.required);
    ("output_height", Joi.number |> Joi.positive |> Joi.integer |> Joi.required) ]%Q).

(** Lines 23-29. *)
Definition validateJson (data : JsObject) : ValidationResult :=
  match Joi.object_validate isUri number_of_string videoRequestSchema data with
  | Some e => {| isValid := false; error := Some e |}
  | None => {| isValid := true; error := None |}
  end.

(** Lines 31-33. *)
Definition isValidRecordId (recordId : string) : bool := alnum_plus recordId.

(** [Object.values(config.allowedIPs).flat()], line 49. *)
Definition allowedIPs_flat : list string :=
  allowedIPs_LOCAL config ++ allowedIPs_MAKE_US1 config
  ++ allowedIPs_MAKE_EU2 config ++ allowedIPs_MAKE_EU1 config.

(** The [try] block of [isValidUrl], lines 41-57. *)
Definition isValidUrl_body (url : string) : Completion bool :=
  match URL_new url with
  | Throw e => Throw e
  | Normal parsedUrl =>
      if negb (array_includes ["http:"; "https:"] (protocol parsedUrl)) then
        Normal false
      else
        let allowedIPs := allowedIPs_flat in
        let hostname := hostname parsedUrl in
        if negb (array_includes allowedIPs hostname)
           && negb (array_includes (allowedDomains config) hostname)
        then Normal false
        else Normal true
  end.

(** Lines 39-61. *)
Definition isValidUrl (url : string) : Completion bool :=
  try_catch (isValidUrl_body url) (fun _ => Normal false).

End Validation.

(** ** The world the service acts on *)

(** The options of [videoQueue.add] (routes/index.ts, lines 174-180). *)
Inductive BackoffType : Type := fixed | exponential.

Record JobOptions : Type := {
  attempts : Z;
  backoff_type : BackoffType;
  backoff_delay : Z;
  removeOnComplete : Z;
  removeOnFail : Z
}.

(** The payload built on lines 163-170: the request body spread into the
    object, then the resolved fields. *)
Record ProcessingPayload : Type := {
  pd_request : JsObject;
  pd_input_width : Z;
  pd_input_height : Z;
  pd_request_host : string;
  pd_cached_input_file : string;
  pd_output_file : string
}.

Record QueueJob : Type := {
  job_name : string;
  job_data : ProcessingPayload;
  job_opts : JobOptions
}.

(** What the code can observe or change outside itself: the files that
    exist, the jobs added to the queue, the child processes started and the
    webhook calls made. *)
Record World : Type := {
  fs : gset string;
  queue : list QueueJob;
  spawned : list (list string);
  posted : list (string * WebhookPayload)
}.

Definition set_fs (f : gset string -> gset string) (w : World) : World :=
  {| fs := f (fs w); queue := queue w; spawned := spawned w; posted := posted w |}.
Definition push_queue (j : QueueJob) (w : World) : World :=
  {| fs := fs w; queue := queue w ++ [j]; spawned := spawned w; posted := posted w |}.
Definition push_spawned (args : list string) (w : World) : World :=
  {| fs := fs w; queue := queue w; spawned := spawned w ++ [args]; posted := posted w |}.
Definition push_posted (url : string) (p : WebhookPayload) (w : World) : World :=
  {| fs := fs w; queue := queue w; spawned := spawned w; posted := posted w ++ [(url, p)] |}.

(** Code that runs against the world and either returns or throws. *)
Definition Run (A : Type) : Type := World -> Completion A * World.

Global Instance Run_ret : MRet Run := fun A a w => (Normal a, w).
Global Instance Run_bind : MBind Run := fun A B f m w =>
  match m w with
  | (Normal a, w') => f a w'
  | (Throw e, w') => (Throw e, w')
  end.

Definition throw {A} (e : JsError) : Run A := fun w => (Throw e, w).
Definition modify (f : World -> World) : Run unit := fun w => (Normal tt, f w).
Definition gets {A} (f : World -> A) : Run A := fun w => (Normal (f w), w).
Definition lift {A} (c : Completion A) : Run A := fun w => (c, w).

(** [try { body } catch (error) { handler }] around world-changing code: the
    changes made before the throw stay. *)
Definition try_catch_run {A} (body : Run A) (handler : JsError -> Run A) : Run A :=
  fun w =>
    match body w with
    | (Normal a, w') => (Normal a, w')
    | (Throw e, w') => handler e w'
    end.

(** Unfolds the sequencing of [Run] code. *)
Ltac run_unfold :=
  unfold try_catch_run, gets, modify, throw, lift,
    mbind, Run_bind, mret, Run_ret in *.

(** [fs.existsSync]. *)
Definition existsSync (p : string) : Run bool :=
  gets (fun w => bool_decide (p ∈ fs w)).

(** ** queue/index.ts: the worker *)

(** How a child process ends: the ['error'] event, or the ['close'] event
    with the exit code ([None] when a signal ended it) and the text
    collected from its two streams. *)
Inductive ProcessResult : Type :=
| ProcessError (e : JsError)
| ProcessClose (code : option Z) (stdout stderr : string).

(** [${code}] for an exit code. *)
Definition code_toString (code : option Z) : string :=
  match code with
  | Some c => Z_toString c
  | None => "null"
  end.

(** The answers of the worker's collaborators. *)
Record WorkerEnv : Type := {
  (** the run of [ffmpeg] on the given arguments *)
  ffmpeg : list string -> ProcessResult;
  (** [axios.post]: [true] when it resolves (a 2xx answer within 10 s) *)
  axios_post : string -> WebhookPayload -> bool;
  (** whether removing the file throws *)
  unlink_throws : string -> bool
}.

Record JobResult : Type := {
  success : bool;
  message : string
}.

Section Worker.

Variable config : Config.
Variable Number_toString : Q -> string.
Variable env : WorkerEnv.

(** Lines 93-122: start the encoder and wait for it to end. *)
Definition run_ffmpeg (ffmpegCommand : list string) : Run unit :=
  let args := skipn 1 ffmpegCommand in
  modify (push_spawned args);;
  match ffmpeg env args with
  | ProcessClose code stdout stderr =>
      if bool_decide (code = Some 0) then mret tt
      else throw (Error ("FFmpeg failed with exit code " +:+ code_toString code
                         +:+ ": " +:+ stderr))
  | ProcessError e => throw e
  end.

(** Lines 126-149. [if (webhook_url)] holds for a non-empty string. *)
Definition call_webhook (data : VideoProcessingData) : Run unit :=
  match webhook_url data with
  | Some url =>
      if String.eqb url "" then mret tt
      else
        let baseUrl := scheme config +:+ "://" +:+ request_host data +:+ ":"
                       +:+ publicPort config in
        let fullUrl := baseUrl +:+ "/" +:+ output_file data in
        let webhookPayload :=
          {| wp_record_id := record_id data; wp_filename := fullUrl |} in
        modify (push_posted url webhookPayload);;
        if axios_post env url webhookPayload then mret tt
        else throw (Error "Webhook call failed")
  | None => mret tt
  end.

(** Lines 151-159: the error of a failed removal is logged and dropped. *)
Definition cleanup (data : VideoProcessingData) : Run unit :=
  try_catch_run
    (present ← existsSync (cached_input_file data);
     if present : bool then
       if unlink_throws env (cached_input_file data)
       then throw (Error "unlink failed")
       else modify (set_fs (fun files => files ∖ {[cached_input_file data]}))
     else mret tt)
    (fun _ => mret tt).

(** Lines 28-160. *)
Definition createVideoTask (data : VideoProcessingData) : Run unit :=
  if ((input_width data <=? 0) || (input_height data <=? 0)
      || (output_width data <=? 0) || (output_height data <=? 0))%Z
  then throw (Error "Input and output dimensions must be positive integers")
  else
    run_ffmpeg (ffmpegCommand Number_toString data);;
    call_webhook data;;
    cleanup data.

(** Lines 14-26: the handler registered with [videoQueue.process]. *)
Definition process_createVideo (data : VideoProcessingData) : Run JobResult :=
  try_catch_run
    (createVideoTask data;;
     mret {| success := true; message := "Video created successfully" |})
    (fun error => throw error).

(** The payload of lines 128-134, as a value of its own (used to state
    properties of the webhook call). *)
Definition webhookPayload_of (data : VideoProcessingData) : WebhookPayload :=
  {| wp_record_id := record_id data;
     wp_filename := (scheme config +:+ "://" +:+ request_host data +:+ ":"
                     +:+ publicPort config) +:+ "/" +:+ output_file data |}.

(** The part of [createVideoTask] before the cleanup: the encoder, then
    the webhook (used to state properties of the cleanup). *)
Definition render_and_notify (data : VideoProcessingData) : Run unit :=
  run_ffmpeg (ffmpegCommand Number_toString data);;
  call_webhook data.

End Worker.

(** ** routes/index.ts: POST /create-video *)

(** [VideoResponse]; the fields copied from the request body are kept as
    the body has them. *)
Record VideoResponse : Type := {
  vr_record_id : option JsValue;
  vr_filename : string;
  vr_message : string;
  vr_input_height : Z;
  vr_input_width : Z;
  vr_output_height : option JsValue;
  vr_output_width : option JsValue
}.

Inductive ResponseBody : Type :=
| ErrorBody (error : string)
| VideoBody (v : VideoResponse).

Record Response : Type := {
  status : Z;
  body : ResponseBody
}.

(** [res.status(code).json({ error })]. *)
Definition error_response (code : Z) (error : string) : Response :=
  {| status := code; body := ErrorBody error |}.

(** How [axios.get] ends: it rejects (network error, timeout, bad status),
    or it resolves with the response headers' [content-type]. *)
Inductive AxiosGetResult : Type :=
| GetError (e : JsError)
| GetResponse (content_type : option string).

(** How the write stream of the cached file ends: ['finish'], or ['error']
    with the file created or not. *)
Inductive WriteResult : Type :=
| WriteFinish
| WriteError (e : JsError) (created : bool).

(** The answers of the route's collaborators for one request. *)
Record HandlerEnv : Type := {
  axios_get : string -> AxiosGetResult;
  (** the two results of [generateRandomFilename()] *)
  cache_filename : string;
  output_filename : string;
  write_stream : string -> WriteResult;
  (** the run of [ffprobe] on the given arguments *)
  ffprobe : list string -> ProcessResult;
  (** lines 126-131: [JSON.parse(stdout)], then [streams[0]]'s width and
      height; it throws when the text or the stream is not there *)
  parse_dimensions : string -> Completion (Z * Z);
  (** [req.get('host')] *)
  req_host : option string;
  (** the error [videoQueue.add] rejects with, if it does *)
  queue_add_error : option JsError
}.

(** What the [try] block of lines 62-148 leaves behind: a response already
    sent (the [return] of line 79), or the cached file and its size. *)
Inductive Acquired : Type :=
| Returned (r : Response)
| Downloaded (cachedInputFile : string) (inputWidth inputHeight : Z).

Definition error_toString (e : JsError) : string :=
  match e with
  | Error m => "Error: " +:+ m
  end.

(** utils/index.ts, [ensureDirectoryExists]. *)
Definition ensureDirectoryExists (dirPath : string) : Run unit :=
  present ← existsSync dirPath;
  if present : bool then mret tt
  else modify (set_fs (fun files => files ∪ {[dirPath]})).

Section Routes.

Variable config : Config.
Variable URL_new : string -> Completion URL.
Variable isUri : string -> bool.
Variable number_of_string : string -> option Q.
Variable env : HandlerEnv.

(** Lines 89-95: pipe the response into the cached file. *)
Definition save_file (cachedInputFile : string) : Run unit :=
  match write_stream env cachedInputFile with
  | WriteFinish => modify (set_fs (fun files => files ∪ {[cachedInputFile]}))
  | WriteError e created =>
      (if created
       then modify (set_fs (fun files => files ∪ {[cachedInputFile]}))
       else mret tt);;
      throw e
  end.

(** Lines 99-144: probe the cached file. *)
Definition probe (cachedInputFile : string) : Run (Z * Z) :=
  let ffprobeCommand :=
    [ "ffprobe"; "-v"; "error"; "-select_streams"; "v:0";
      "-show_entries"; "stream=width,height"; "-of"; "json";
      cachedInputFile ] in
  let args := skipn 1 ffprobeCommand in
  modify (push_spawned args);;
  match ffprobe env args with
  | ProcessClose code stdout stderr =>
      if bool_decide (code = Some 0) then
        lift (try_catch (parse_dimensions env stdout)
                (fun parseError =>
                   Throw (Error ("Failed to parse ffprobe output: "
                                 +:+ error_toString parseError))))
      else throw (Error ("ffprobe failed with error: " +:+ stderr))
  | ProcessError e => throw e
  end.

(** Line 77: [contentType && contentType.includes('application/json')]. *)
Definition is_json_content_type (contentType : option string) : bool :=
  match contentType with
  | Some ct => negb (String.eqb ct "") && includes "application/json" ct
  | None => false
  end.

(** Lines 62-153: download and probe, with the [catch] of line 149. *)
Definition acquire (input_url : string) : Run Acquired :=
  try_catch_run
    (match axios_get env input_url with
     | GetError e => throw e
     | GetResponse contentType =>
         if is_json_content_type contentType
         then mret (Returned (error_response 400 "Invalid file type"))
         else
           ensureDirectoryExists (cacheDir config);;
           let cachedInputFile := path_join (cacheDir config) (cache_filename env) in
           save_file cachedInputFile;;
           dimensions ← probe cachedInputFile;
           mret (Downloaded cachedInputFile (fst dimensions) (snd dimensions))
     end)
    (fun _ => mret (Returned (error_response 400 "Failed to download input file"))).

(** Lines 174-180. *)
Definition createVideo_options : JobOptions := {|
  attempts := 3;
  backoff_type := exponential;
  backoff_delay := 2000;
  removeOnComplete := 10;
  removeOnFail := 5
|}.

(** Lines 155-195: enqueue the job and answer. *)
Definition enqueue_and_respond (data : JsObject)
           (cachedInputFile : string) (inputWidth inputHeight : Z) : Run Response :=
  ensureDirectoryExists (moviesDir config);;
  let filename := output_filename env in
  let outputFile := path_join (moviesDir config) filename in
  let processingData := {|
    pd_request := data;
    pd_input_width := inputWidth;
    pd_input_height := inputHeight;
    pd_request_host :=
      match req_host env with
      | Some h => if String.eqb h "" then "localhost" else h
      | None => "localhost"
      end;
    pd_cached_input_file := cachedInputFile;
    pd_output_file := outputFile |} in
  match queue_add_error env with
  | Some e => throw e
  | None =>
      modify (push_queue {| job_name := "createVideo";
                            job_data := processingData;
                            job_opts := createVideo_options |})
  end;;
  mret {| status := 200;
          body := VideoBody {|
            vr_record_id := data !! "record_id";
            vr_filename := filename;
            vr_message := "Video processing started";
            vr_input_height := inputHeight;
            vr_input_width := inputWidth;
            vr_output_height := data !! "output_height";
            vr_output_width := data !! "output_width" |} |}.

(** Lines 57-195. *)
Definition download_and_enqueue (data : JsObject) (input_url : string) : Run Response :=
  acquired ← acquire input_url;
  match acquired with
  | Returned r => mret r
  | Downloaded cachedInputFile inputWidth inputHeight =>
      enqueue_and_respond data cachedInputFile inputWidth inputHeight
  end.

(** Lines 52-55: [webhook_url && !isValidUrl(webhook_url)]. The schema
    leaves [webhook_url] undefined or a non-empty string. *)
Definition webhook_url_rejected (data : JsObject) : Run bool :=
  match data !! "webhook_url" with
  | Some (JStr webhook_url) =>
      if String.eqb webhook_url "" then mret false
      else
        valid ← lift (isValidUrl config URL_new webhook_url);
        mret (negb valid)
  | _ => mret false
  end.

(** Lines 22-200: the body of the handler inside its [try]. After
    [validateJson], [input_url] is a string; [new URL] of any other value
    would throw inside [isValidUrl], which then answers [false]. *)
Definition create_video_body (data : JsObject) : Run Response :=
  let validation := validateJson isUri number_of_string data in
  if negb (isValid validation) then
    mret (error_response 400 "Invalid input data")
  else
    match data !! "input_url" with
    | Some (JStr input_url) =>
        valid ← lift (isValidUrl config URL_new input_url);
        if negb valid then mret (error_response 400 "Invalid input URL")
        else
          rejected ← webhook_url_rejected data;
          if rejected : bool then mret (error_response 400 "Invalid webhook URL")
          else download_and_enqueue data input_url
    | _ => mret (error_response 400 "Invalid input URL")
    end.

(** Lines 21-201: the handler; an error that escapes is answered 500. The
    handler itself never throws, so it maps a world to a response and a
    world. *)
Definition create_video (data : JsObject) (w : World) : Response * World :=
  match create_video_body data w with
  | (Normal r, w') => (r, w')
  | (Throw _, w') => (error_response 500 "Internal server error", w')
  end.

End Routes.

(** ** utils/index.ts: random file names *)

(** The alphabet of both generators. *)
Definition characters : string :=
  "ABCDEFGHIJKLMNOPQRSTUVWXYZabcdefghijklmnopqrstuvwxyz0123456789".

(** [result += s[index]]: what indexing a string appends; an index outside
    the string reads as [undefined]. *)
Definition char_at (s : string) (index : Z) : string :=
  if (index <? 0)%Z then "undefined"
  else match String.get (Z.to_nat index) s with
       | Some c => String c EmptyString
       | None => "undefined"
       end.

Section RandomFilename.

(** The successive results of [Math.random()]. *)
Variable random : nat -> Q.



(** The buffer [randomBytes(length)] returns. *)
Variable bytes : list Z.

(** The loop of [generateSecureRandomFilename]; a missing byte makes the
    index [NaN], which reads as [undefined]. *)
Fixpoint generateSecureRandomFilename_loop (remaining i : nat) (result : string)
  : string :=
  match remaining with
  | O => result
  | S remaining' =>
      generateSecureRandomFilename_loop remaining' (S i)
        (result +:+ match nth_error bytes i with
                    | Some b =>
                        char_at characters
                          (Z.rem b (Z.of_nat (String.length characters)))
                    | None => "undefined"
                    end)
  end.

(** utils/index.ts, lines 15-25. *)
Definition generateSecureRandomFilename (length : nat) : string :=
  generateSecureRandomFilename_loop length 0 "" +:+ ".mp4".

End RandomFilename.

(** ** validation/index.ts: the stand-alone predicates and the API key *)

(** Lines 35-37. *)
Definition isValidApiKey (apiKey : string) : bool := alnum_plus apiKey.

(** [Number.isInteger] on a rational. *)
Definition Number_isInteger (value : Q) : bool :=
  Z.eqb (Zpos (Qden (Qred value))) 1.

(** Lines 63-65. *)
Definition isValidZoomLevel (zoom : Q) : bool :=
  Qle_bool (-100) zoom && Qle_bool zoom 100.

(** Lines 71-73. *)
Definition isValidDimension (value : Q) : bool :=
  Number_isInteger value && Qlt_bool 0 value.

(** Lines 75-77. *)
Definition isValidFramerate (value : Q) : bool :=
  Number_isInteger value && Qlt_bool 0 value.

(** Lines 79-81. *)
Definition isValidDuration (value : Q) : bool :=
  Number_isInteger value && Qle_bool value 60 && Qlt_bool 0 value.

(** What a middleware does with a request: answer it, or call [next()],
    with the API key attached to the request or not. *)
Inductive MiddlewareResult : Type :=
| Rejected (r : Response)
| Next (apiKey : option string).

(** What a route sends: an error or video response, or a [message]. *)
Inductive RouteResponse : Type :=
| Sent (r : Response)
| SentMessage (code : Z) (message : string).

Section ApiKey.

Variable config : Config.
(** [path.normalize(path.join(dir, name))]. *)
Variable normalized_join : string -> string -> string.
(** [fs.statSync(path).isDirectory()] of an existing path. *)
Variable isDirectory : string -> bool.

(** Lines 87-96. *)
Definition directoryExists (apiKey : string) : Run bool :=
  let fullPath := normalized_join (moviesDir config) apiKey in
  if negb (String.prefix (moviesDir config) fullPath) then
    throw (Error "Directory traversal not allowed")
  else
    present ← existsSync fullPath;
    mret (present && isDirectory fullPath).

(** Lines 98-123; [header] is [req.headers['x-api-key']]. *)
Definition validateApiKey (passApiKey : bool) (header : option string)
  : Run MiddlewareResult :=
  match header with
  | None => mret (Rejected (error_response 400 "Missing x-api-key header"))
  | Some apiKey =>
      if String.eqb apiKey "" then
        mret (Rejected (error_response 400 "Missing x-api-key header"))
      else if negb (isValidApiKey apiKey) then
        mret (Rejected (error_response 400 "Invalid API key"))
      else
        found ← directoryExists apiKey;
        if negb found then
          mret (Rejected (error_response 400 "Directory does not exist"))
        else
          mret (Next (if passApiKey then Some apiKey else None))
  end.

(** routes/index.ts, lines 16-18: [GET /api/validate]. An error thrown by
    the middleware goes to the application's error handler. *)
Definition api_validate (header : option string) : Run RouteResponse :=
  checked ← validateApiKey false header;
  match checked with
  | Rejected r => mret (Sent r)
  | Next _ => mret (SentMessage 200 "API key is valid")
  end.

Variable URL_new : string -> Completion URL.
Variable isUri : string -> bool.
Variable number_of_string : string -> option Q.
Variable env : HandlerEnv.

(** routes/index.ts, line 21: [POST /create-video] behind
    [validateApiKey(true)]. *)
Definition post_create_video (header : option string) (data : JsObject)
  : Run Response :=
  checked ← validateApiKey true header;
  match checked with
  | Rejected r => mret r
  | Next _ =>
      fun w =>
        let (r, w') := create_video config URL_new isUri number_of_string env data w in
        (Normal r, w')
  end.

End ApiKey.

(** ** Sample collaborators, for evaluating the model on concrete requests *)

(** A parser for strings of the shape [scheme://host/path]; every other
    string is rejected. *)
Definition sample_URL_new (url : string) : Completion URL :=
  match String.index 0 "://" url with
  | Some i =>
      let rest := String.substring (i + 3) (String.length url - (i + 3)) url in
      let host :=
        match String.index 0 "/" rest with
        | Some j => String.substring 0 j rest
        | None => rest
        end in
      if String.eqb host "" then Throw (Error "Invalid URL")
      else Normal {| protocol := String.substring 0 i url +:+ ":"; hostname := host |}
  | None => Throw (Error "Invalid URL")
  end.

Definition sample_isUri (s : string) : bool := includes ":" s.

Definition sample_number_of_string (s : string) : option Q := None.

(** Renders the integer part only. *)
Definition sample_Number_toString (q : Q) : string :=
  Z_toString (Qnum q / Zpos (Qden q)).

Definition sample_request : JsObject :=
  list_to_map
    [ ("record_id", JStr "rec42");
      ("input_url", JStr "https://example.com/a.png");
      ("webhook_url", JStr "https://trusted.com/hook");
      ("framerate", JNum 30);
      ("duration", JNum 5);
      ("cache", JBool true);
      ("zoom", JNum 50);
      ("crop", JBool true);
      ("output_width", JNum 400);
      ("output_height", JNum 400) ].

(** The request [data] with key [k] set to [v]. *)
Definition with_key (k : string) (v : JsValue) (data : JsObject) : JsObject :=
  <[k := v]> data.

Definition empty_world : World :=
  {| fs := ∅; queue := []; spawned := []; posted := [] |}.

(** A request environment in which the download, the write of the cached
    file and the probe end as given; a good probe reports 800x600. *)
Definition sample_handler_env (download : AxiosGetResult) (written : WriteResult)
           (probed : ProcessResult) : HandlerEnv := {|
  axios_get := fun _ => download;
  cache_filename := "aaaaaaaaaaaaaaaa.mp4";
  output_filename := "bbbbbbbbbbbbbbbb.mp4";
  write_stream := fun _ => written;
  ffprobe := fun _ => probed;
  parse_dimensions := fun _ => Normal (800, 600);
  req_host := Some "api.example.com";
  queue_add_error := None
|}.


(** A job for an 800x600 source, cropped to 400x400, with zoom 50. *)
Definition sample_job : VideoProcessingData := {|
  record_id := "rec42";
  input_url := "https://example.com/a.png";
  webhook_url := Some "https://trusted.com/hook";
  framerate := 30;
  duration := 5;
  cache := true;
  zoom := 50;
  crop := true;
  output_width := 400;
  output_height := 400;
  input_width := 800;
  input_height := 600;
  request_host := "api.example.com";
  cached_input_file := "cache/aaaaaaaaaaaaaaaa.mp4";
  output_file := "movies/bbbbbbbbbbbbbbbb.mp4"
|}.

(** The same job without a webhook. *)
Definition sample_job_no_webhook : VideoProcessingData := {|
  record_id := "rec42";
  input_url := "https://example.com/a.png";
  webhook_url := None;
  framerate := 30;
  duration := 5;
  cache := true;
  zoom := 50;
  crop := true;
  output_width := 400;
  output_height := 400;
  input_width := 800;
  input_height := 600;
  request_host := "api.example.com";
  cached_input_file := "cache/aaaaaaaaaaaaaaaa.mp4";
  output_file := "movies/bbbbbbbbbbbbbbbb.mp4"
|}.

(** A worker whose encoder exits with [code], whose webhook call resolves
    or not, and whose file removal throws or not. *)
Definition sample_worker_env (code : Z) (webhook_ok unlink_fails : bool) : WorkerEnv := {|
  ffmpeg := fun _ => ProcessClose (Some code) "" "boom";
  axios_post := fun _ _ => webhook_ok;
  unlink_throws := fun _ => unlink_fails
|}.

(** A world in which the cached source of [sample_job] exists. *)
Definition cached_world : World :=
  {| fs := {["cache"; "cache/aaaaaaaaaaaaaaaa.mp4"]};
     queue := []; spawned := []; posted := [] |}.

(** A job built from the fields the filter chain reads. *)
Definition sample_job_with (cropped : bool) (zoomed : Q)
           (inputWidth inputHeight outputWidth outputHeight : Z)
  : VideoProcessingData := {|
  record_id := "rec42";
  input_url := "https://example.com/a.png";
  webhook_url := Some "https://trusted.com/hook";
  framerate := 30;
  duration := 5;
  cache := true;
  zoom := zoomed;
  crop := cropped;
  output_width := outputWidth;
  output_height := outputHeight;
  input_width := inputWidth;
  input_height := inputHeight;
  request_host := "api.example.com";
  cached_input_file := "cache/aaaaaaaaaaaaaaaa.mp4";
  output_file := "movies/bbbbbbbbbbbbbbbb.mp4"
|}.

Definition sample_bytes : list Z := [0; 255; 61; 62].

(** Path normalisation on a directory and a plain name. *)
Definition sample_normalized_join (dir name : string) : string :=
  dir +:+ "/" +:+ name.

Definition sample_isDirectory (p : string) : bool := true.

(** A world with the movies directory and the directory of one API key. *)
Definition movies_world : World :=
  {| fs := {["movies"; "movies/testkey"]};
     queue := []; spawned := []; posted := [] |}.

(** A worker whose encoder fails to start. *)
Definition sample_worker_env_spawn_error : WorkerEnv := {|
  ffmpeg := fun _ => ProcessError (Error "spawn ffmpeg ENOENT");
  axios_post := fun _ _ => true;
  unlink_throws := fun _ => false
|}.

(** * Properties *)

(** ** The filter chain *)

Section FilterChainFacts.

Variable Number_toString : Q -> string.

Lemma dimensions_positive_guard (data : VideoProcessingData) :
  0 < input_width data -> 0 < input_height data ->
  0 < output_width data -> 0 < output_height data ->
  ((input_width data <=? 0) || (input_height data <=? 0)
   || (output_width data <=? 0) || (output_height data <=? 0))%Z = false.
Proof.
  intros Hiw Hih How Hoh.
  rewrite !orb_false_iff, !Z.leb_gt. auto.
Qed.

(** With positive dimensions the task reaches the encoder, and what it
    starts is the command of lines 79-88 without its first word. *)
Lemma createVideoTask_spawns config env (data : VideoProcessingData) (w : World) :
  0 < input_width data -> 0 < input_height data ->
  0 < output_width data -> 0 < output_height data ->
  spawned (snd (createVideoTask config Number_toString env data w))
  = spawned w ++ [skipn 1 (ffmpegCommand Number_toString data)].
Proof.
  intros Hiw Hih How Hoh.
  unfold createVideoTask.
  rewrite dimensions_positive_guard by assumption.
  unfold run_ffmpeg, call_webhook, cleanup, try_catch_run, existsSync, gets,
    modify, throw, mbind, Run_bind, mret, Run_ret; simpl.
  destruct (ffmpeg env _) as [e|code out err]; simpl; [reflexivity|].
  case_bool_decide; simpl; [|reflexivity].
  destruct (webhook_url data) as [url|]; simpl.
  - destruct (String.eqb url ""); simpl.
    + case_bool_decide; simpl; [destruct (unlink_throws env _)|]; reflexivity.
    + destruct (axios_post env url _); simpl; [|reflexivity].
      case_bool_decide; simpl; [destruct (unlink_throws env _)|]; reflexivity.
  - case_bool_decide; simpl; [destruct (unlink_throws env _)|]; reflexivity.
Qed.

(** The chain reads the crop flag and the four dimensions only: two jobs
    that agree on those get the same chain, whatever their zoom. *)
Lemma videoFilter_ignores_zoom (data data' : VideoProcessingData) :
  crop data = crop data' ->
  input_width data = input_width data' -> input_height data = input_height data' ->
  output_width data = output_width data' -> output_height data = output_height data' ->
  videoFilter data = videoFilter data'.
Proof.
  intros Hcrop Hiw Hih How Hoh.
  unfold videoFilter, cropFilter, padFilter, cropRegion, dimensions_differ.
  rewrite Hcrop, Hiw, Hih, How, Hoh. reflexivity.
Qed.

(** C10: for positive input and output dimensions, [crop] set and the
    sizes differing, the crop rectangle is computed and lies inside the
    input frame: the offsets are not negative, and offset plus size stays
    within the input width and height. *)
Theorem crop_rectangle_within_input (data : VideoProcessingData) :
  0 < input_width data -> 0 < input_height data ->
  0 < output_width data -> 0 < output_height data ->
  crop data = true -> dimensions_differ data = true ->
  exists cropWidth cropHeight cropX cropY,
    cropRegion data = Some (cropWidth, cropHeight, cropX, cropY)
    /\ 0 <= cropX /\ 0 <= cropY
    /\ cropX + cropWidth <= input_width data
    /\ cropY + cropHeight <= input_height data.
Proof.
  intros Hiw Hih How Hoh Hcrop Hdiff.
  unfold cropRegion. rewrite Hcrop, Hdiff. simpl.
  do 4 eexists. split; [reflexivity|].
  pose proof (Z.le_min_l (input_width data) (output_width data)) as Hw.
  pose proof (Z.le_min_l (input_height data) (output_height data)) as Hh.
  repeat split; Z.to_euclidean_division_equations; lia.
Qed.

Lemma crop_rectangle_within_input_witness :
  exists cropWidth cropHeight cropX cropY,
    cropRegion sample_job = Some (cropWidth, cropHeight, cropX, cropY)
    /\ 0 <= cropX /\ 0 <= cropY
    /\ cropX + cropWidth <= input_width sample_job
    /\ cropY + cropHeight <= input_height sample_job.
Proof.
  apply (crop_rectangle_within_input sample_job); simpl; solve [lia | reflexivity].
Defined.

(** C2: when [crop] is set and the sizes differ, the filter chain crops to
    the smaller of input and output size on each axis, at the offset
    floor((input - crop) / 2), then scales to the output size; with
    positive dimensions this chain is the [-vf] argument of the one
    encoder process the task starts. *)
Theorem crop_filter_chain config env (data : VideoProcessingData) (w : World) :
  crop data = true -> dimensions_differ data = true ->
  let cropWidth := Z.min (input_width data) (output_width data) in
  let cropHeight := Z.min (input_height data) (output_height data) in
  let cropX := (input_width data - cropWidth) / 2 in
  let cropY := (input_height data - cropHeight) / 2 in
  let chain :=
    "format=yuv420p"
    +:+ (",crop=" +:+ Z_toString cropWidth +:+ ":" +:+ Z_toString cropHeight
         +:+ ":" +:+ Z_toString cropX +:+ ":" +:+ Z_toString cropY)
    +:+ ",scale=" +:+ Z_toString (output_width data) +:+ ":"
    +:+ Z_toString (output_height data) in
  cropRegion data = Some (cropWidth, cropHeight, cropX, cropY)
  /\ videoFilter data = chain
  /\ (0 < input_width data -> 0 < input_height data ->
      0 < output_width data -> 0 < output_height data ->
      spawned (snd (createVideoTask config Number_toString env data w))
      = spawned w
        ++ [[ "-loop"; "1"; "-i"; cached_input_file data; "-vf"; chain;
              "-t"; Number_toString (duration data); "-pix_fmt"; "yuv420p";
              "-r"; Number_toString (framerate data); output_file data ]]).
Proof.
  intros Hcrop Hdiff cropWidth cropHeight cropX cropY chain.
  assert (Hregion : cropRegion data = Some (cropWidth, cropHeight, cropX, cropY)).
  { unfold cropRegion. rewrite Hcrop, Hdiff. reflexivity. }
  assert (Hchain : videoFilter data = chain).
  { unfold videoFilter, cropFilter, padFilter.
    rewrite Hregion, Hcrop. reflexivity. }
  split; [exact Hregion|]. split; [exact Hchain|].
  intros Hiw Hih How Hoh.
  rewrite createVideoTask_spawns by assumption.
  unfold ffmpegCommand. rewrite Hchain. reflexivity.
Qed.

End FilterChainFacts.

Lemma crop_filter_chain_witness :
  cropRegion sample_job = Some (400, 400, 200, 100)
  /\ videoFilter sample_job = "format=yuv420p,crop=400:400:200:100,scale=400:400"
  /\ spawned (snd (createVideoTask default_config sample_Number_toString
                     (sample_worker_env 0 true false) sample_job cached_world))
     = [[ "-loop"; "1"; "-i"; "cache/aaaaaaaaaaaaaaaa.mp4"; "-vf";
          "format=yuv420p,crop=400:400:200:100,scale=400:400";
          "-t"; "5"; "-pix_fmt"; "yuv420p"; "-r"; "30";
          "movies/bbbbbbbbbbbbbbbb.mp4" ]].
Proof.
  destruct (crop_filter_chain sample_Number_toString default_config
              (sample_worker_env 0 true false) sample_job cached_world
              eq_refl eq_refl) as (Hregion & Hchain & Hspawned).
  split; [exact Hregion|]. split; [exact Hchain|].
  apply Hspawned; simpl; lia.
Defined.

(** C1: at a job with zoom 50 the zoom stage is computed (rate
    (50/100)*0.1 = 0.05, ceiling 2), but the [-vf] argument of the encoder
    process is built from the crop and pad stages only: no [zoompan] stage
    is in the chain handed to the encoder. *)
Theorem zoom_stage_not_in_chain (Number_toString : Q -> string)
        (config : Config) (env : WorkerEnv) :
  zoomFilter Number_toString sample_job
  = ",zoompan=z='min(zoom+" +:+ Number_toString (normalizedZoom sample_job)
    +:+ ",2)':d=1"
  /\ (normalizedZoom sample_job == 5 # 100)%Q
  /\ videoFilter sample_job = "format=yuv420p,crop=400:400:200:100,scale=400:400"
  /\ includes "zoompan" (videoFilter sample_job) = false
  /\ spawned (snd (createVideoTask config Number_toString env sample_job cached_world))
     = [[ "-loop"; "1"; "-i"; "cache/aaaaaaaaaaaaaaaa.mp4"; "-vf";
          "format=yuv420p,crop=400:400:200:100,scale=400:400";
          "-t"; Number_toString 5%Q; "-pix_fmt"; "yuv420p";
          "-r"; Number_toString 30%Q; "movies/bbbbbbbbbbbbbbbb.mp4" ]].
Proof.
  split; [reflexivity|]. split; [reflexivity|].
  split; [reflexivity|]. split; [reflexivity|].
  rewrite createVideoTask_spawns by (simpl; lia).
  reflexivity.
Qed.

(** ** The worker: webhook and cleanup *)

Section WorkerFacts.

Variable config : Config.
Variable Number_toString : Q -> string.

(** Cleanup always returns normally and touches only the file system. *)
Lemma cleanup_returns env (data : VideoProcessingData) (w : World) :
  exists files,
    cleanup env data w = (Normal tt, set_fs (fun _ => files) w)
    /\ (unlink_throws env (cached_input_file data) = false ->
        cached_input_file data ∉ files)
    /\ files ⊆ fs w.
Proof.
  unfold cleanup, existsSync. run_unfold. simpl.
  case_bool_decide as Hin; simpl.
  - destruct (unlink_throws env _) eqn:Hu; simpl.
    + exists (fs w). destruct w; simpl. split; [reflexivity|].
      split; [discriminate|set_solver].
    + exists (fs w ∖ {[cached_input_file data]}).
      split; [reflexivity|]. split; set_solver.
  - exists (fs w). destruct w; simpl. split; [reflexivity|]. split; set_solver.
Qed.

(** The outcome of cleanup does not depend on whether the removal throws. *)
Lemma cleanup_outcome env env' (data : VideoProcessingData) (w : World) :
  fst (cleanup env data w) = fst (cleanup env' data w).
Proof.
  destruct (cleanup_returns env data w) as (f & -> & _).
  destruct (cleanup_returns env' data w) as (f' & -> & _).
  reflexivity.
Qed.

Lemma render_and_notify_fs env (data : VideoProcessingData) (w : World) :
  fs (snd (render_and_notify config Number_toString env data w)) = fs w.
Proof.
  unfold render_and_notify, run_ffmpeg, call_webhook. run_unfold. simpl.
  destruct (ffmpeg env _) as [e|code out err]; simpl; [reflexivity|].
  case_bool_decide; simpl; [|reflexivity].
  destruct (webhook_url data) as [url|]; simpl; [|reflexivity].
  destruct (String.eqb url ""); simpl; [reflexivity|].
  destruct (axios_post env url _); reflexivity.
Qed.

Lemma createVideoTask_steps env (data : VideoProcessingData) (w : World) :
  0 < input_width data -> 0 < input_height data ->
  0 < output_width data -> 0 < output_height data ->
  createVideoTask config Number_toString env data w
  = match render_and_notify config Number_toString env data w with
    | (Normal _, w') => cleanup env data w'
    | (Throw e, w') => (Throw e, w')
    end.
Proof.
  intros Hiw Hih How Hoh. unfold createVideoTask.
  rewrite dimensions_positive_guard by assumption.
  unfold render_and_notify. run_unfold.
  destruct (run_ffmpeg env _ w) as [[[]|e] w1]; [|reflexivity].
  destruct (call_webhook config env data w1) as [[[]|e] w2]; reflexivity.
Qed.

Lemma process_createVideo_outcome env (data : VideoProcessingData) (w : World) :
  process_createVideo config Number_toString env data w
  = match createVideoTask config Number_toString env data w with
    | (Normal _, w') =>
        (Normal {| success := true; message := "Video created successfully" |}, w')
    | (Throw e, w') => (Throw e, w')
    end.
Proof.
  unfold process_createVideo. run_unfold.
  destruct (createVideoTask _ _ _ _ _) as [[[]|e] w']; reflexivity.
Qed.

End WorkerFacts.

Section WorkerClaims.

Variable config : Config.
Variable Number_toString : Q -> string.

(** C3 (amended): when the render step and the webhook step of an attempt
    succeed, the cached source file is removed (unless the removal itself
    throws), and whether the removal throws never changes the job's
    outcome; when the attempt fails, the files are left as they were. *)
Theorem cleanup_after_successful_attempt env (data : VideoProcessingData) (w : World) :
  let attempt := process_createVideo config Number_toString env data w in
  (forall result, fst attempt = Normal result ->
     unlink_throws env (cached_input_file data) = false ->
     cached_input_file data ∉ fs (snd attempt))
  /\ (forall unlink_throws',
        fst (process_createVideo config Number_toString
               {| ffmpeg := ffmpeg env; axios_post := axios_post env;
                  unlink_throws := unlink_throws' |} data w)
        = fst attempt)
  /\ (forall e, fst attempt = Throw e -> fs (snd attempt) = fs w).
Proof.
  intros attempt. subst attempt.
  rewrite process_createVideo_outcome.
  destruct ((input_width data <=? 0) || (input_height data <=? 0)
            || (output_width data <=? 0) || (output_height data <=? 0))%Z eqn:Hguard.
  - (* the guard of line 46 throws *)
    split; [|split].
    + unfold createVideoTask. rewrite Hguard. discriminate.
    + intros u. rewrite process_createVideo_outcome.
      unfold createVideoTask. rewrite Hguard. reflexivity.
    + unfold createVideoTask. rewrite Hguard. reflexivity.
  - rewrite !orb_false_iff, !Z.leb_gt in Hguard.
    destruct Hguard as [[[Hiw Hih] How] Hoh].
    rewrite createVideoTask_steps by assumption.
    pose proof (render_and_notify_fs config Number_toString env data w) as Hfs.
    destruct (render_and_notify config Number_toString env data w)
      as [[[]|e] w1] eqn:Hrn; simpl in Hfs.
    + destruct (cleanup_returns env data w1) as (files & Hc & Hgone & Hsub).
      split; [|split].
      * rewrite Hc. simpl. intros _ _ Hu. auto.
      * intros u. rewrite process_createVideo_outcome.
        rewrite createVideoTask_steps by assumption.
        change (render_and_notify config Number_toString _ data w)
          with (render_and_notify config Number_toString env data w).
        rewrite Hrn, Hc.
        destruct (cleanup_returns
                    {| ffmpeg := ffmpeg env; axios_post := axios_post env;
                       unlink_throws := u |} data w1) as (files' & -> & _).
        reflexivity.
      * rewrite Hc. discriminate.
    + split; [|split].
      * discriminate.
      * intros u. rewrite process_createVideo_outcome.
        rewrite createVideoTask_steps by assumption.
        change (render_and_notify config Number_toString _ data w)
          with (render_and_notify config Number_toString env data w).
        rewrite Hrn. reflexivity.
      * intros _ _. exact Hfs.
Qed.

(** C5: once rendering has succeeded, a job with a webhook URL whose
    delivery fails ends as a failed job with the error "Webhook call
    failed"; a job without a webhook URL ends successfully and no webhook
    call is made. *)
Theorem webhook_failure_fails_job env (data : VideoProcessingData) (w : World)
        (stdout stderr : string) :
  0 < input_width data -> 0 < input_height data ->
  0 < output_width data -> 0 < output_height data ->
  ffmpeg env (skipn 1 (ffmpegCommand Number_toString data))
  = ProcessClose (Some 0) stdout stderr ->
  let attempt := process_createVideo config Number_toString env data w in
  (forall url, webhook_url data = Some url -> url <> "" ->
     axios_post env url (webhookPayload_of config data) = false ->
     fst attempt = Throw (Error "Webhook call failed"))
  /\ (webhook_url data = None ->
      fst attempt
      = Normal {| success := true; message := "Video created successfully" |}
      /\ posted (snd attempt) = posted w).
Proof.
  intros Hiw Hih How Hoh Hff attempt. subst attempt.
  rewrite process_createVideo_outcome.
  rewrite createVideoTask_steps by assumption.
  unfold render_and_notify, run_ffmpeg, call_webhook. run_unfold.
  cbn [fst snd]. rewrite Hff.
  rewrite bool_decide_eq_true_2 by reflexivity.
  split.
  - intros url Hurl Hne Hpost. rewrite Hurl.
    apply String.eqb_neq in Hne. rewrite Hne.
    unfold webhookPayload_of in Hpost. rewrite Hpost. reflexivity.
  - intros Hnone. rewrite Hnone.
    destruct (cleanup_returns env data (push_spawned
                (skipn 1 (ffmpegCommand Number_toString data)) w))
      as (files & Hc & _).
    cbn [skipn ffmpegCommand] in Hc |- *. rewrite Hc. split; reflexivity.
Qed.

End WorkerClaims.

(** C3, as stated, fails: when the encoder exits with code 1, or when the
    webhook call fails after a good render, the attempt ends with an error
    and the cached source file is still there, although removing it would
    not have thrown. *)
Lemma cleanup_skipped_on_failure :
  let render_failed :=
    process_createVideo default_config sample_Number_toString
      (sample_worker_env 1 true false) sample_job cached_world in
  let webhook_failed :=
    process_createVideo default_config sample_Number_toString
      (sample_worker_env 0 false false) sample_job cached_world in
  fst render_failed = Throw (Error "FFmpeg failed with exit code 1: boom")
  /\ cached_input_file sample_job ∈ fs (snd render_failed)
  /\ fst webhook_failed = Throw (Error "Webhook call failed")
  /\ cached_input_file sample_job ∈ fs (snd webhook_failed).
Proof.
  repeat split; try reflexivity;
    apply bool_decide_unpack; vm_compute; exact I.
Qed.

Lemma cleanup_after_successful_attempt_witness :
  let attempt :=
    process_createVideo default_config sample_Number_toString
      (sample_worker_env 0 true false) sample_job cached_world in
  (cached_input_file sample_job ∉ fs (snd attempt))
  /\ fs (snd (process_createVideo default_config sample_Number_toString
                (sample_worker_env 1 true false) sample_job cached_world))
     = fs cached_world.
Proof.
  split.
  - apply (proj1 (cleanup_after_successful_attempt default_config
                    sample_Number_toString (sample_worker_env 0 true false)
                    sample_job cached_world)
             {| success := true; message := "Video created successfully" |});
      reflexivity.
  - apply (proj2 (proj2 (cleanup_after_successful_attempt default_config
                    sample_Number_toString (sample_worker_env 1 true false)
                    sample_job cached_world))
             (Error "FFmpeg failed with exit code 1: boom")).
    reflexivity.
Defined.

Lemma webhook_failure_fails_job_witness :
  fst (process_createVideo default_config sample_Number_toString
         (sample_worker_env 0 false false) sample_job cached_world)
  = Throw (Error "Webhook call failed")
  /\ fst (process_createVideo default_config sample_Number_toString
            (sample_worker_env 0 false false) sample_job_no_webhook cached_world)
     = Normal {| success := true; message := "Video created successfully" |}.
Proof.
  split.
  - apply (proj1 (webhook_failure_fails_job default_config sample_Number_toString
                    (sample_worker_env 0 false false) sample_job cached_world
                    "" "boom" ltac:(simpl; lia) ltac:(simpl; lia)
                    ltac:(simpl; lia) ltac:(simpl; lia) eq_refl)
             "https://trusted.com/hook" eq_refl ltac:(discriminate) eq_refl).
  - apply (proj2 (webhook_failure_fails_job default_config sample_Number_toString
                    (sample_worker_env 0 false false) sample_job_no_webhook
                    cached_world "" "boom" ltac:(simpl; lia) ltac:(simpl; lia)
                    ltac:(simpl; lia) ltac:(simpl; lia) eq_refl) eq_refl).
Defined.

(** ** Validation *)

Lemma Qlt_bool_iff (x y : Q) : Qlt_bool x y = true <-> (x < y)%Q.
Proof.
  unfold Qlt_bool. rewrite negb_true_iff, <- not_true_iff_false, Qle_bool_iff.
  split; [apply Qnot_le_lt | apply Qlt_not_le].
Qed.

Section UrlFacts.

Variable config : Config.
Variable URL_new : string -> Completion URL.

Lemma isValidUrl_total (url : string) :
  exists b, isValidUrl config URL_new url = Normal b.
Proof.
  unfold isValidUrl, isValidUrl_body, try_catch.
  destruct (URL_new url) as [parsedUrl|e]; [|eauto].
  destruct (negb (array_includes _ (protocol parsedUrl))); [eauto|].
  simpl. destruct (negb _ && negb _); eauto.
Qed.

(** C9: the URL check always returns a boolean, whatever the parser does;
    it returns [false] when the string does not parse and when the scheme
    is neither [http:] nor [https:]. *)
Theorem isValidUrl_never_throws (url : string) :
  (exists b, isValidUrl config URL_new url = Normal b)
  /\ (forall e, URL_new url = Throw e ->
        isValidUrl config URL_new url = Normal false)
  /\ (forall parsedUrl, URL_new url = Normal parsedUrl ->
        protocol parsedUrl <> "http:" -> protocol parsedUrl <> "https:" ->
        isValidUrl config URL_new url = Normal false).
Proof.
  split; [apply isValidUrl_total|]. split.
  - intros e He. unfold isValidUrl, isValidUrl_body. rewrite He. reflexivity.
  - intros parsedUrl Hp Hhttp Hhttps.
    unfold isValidUrl, isValidUrl_body. rewrite Hp.
    unfold array_includes. simpl.
    apply String.eqb_neq in Hhttp, Hhttps. rewrite Hhttp, Hhttps.
    reflexivity.
Qed.

(** A host outside both allow-lists, or a scheme outside http/https, is
    refused. *)
Lemma isValidUrl_refuses (url : string) (parsedUrl : URL) :
  URL_new url = Normal parsedUrl ->
  array_includes ["http:"; "https:"] (protocol parsedUrl) = false
  \/ (array_includes (allowedIPs_flat config) (hostname parsedUrl) = false
      /\ array_includes (allowedDomains config) (hostname parsedUrl) = false) ->
  isValidUrl config URL_new url = Normal false.
Proof.
  intros Hp Hbad. unfold isValidUrl, isValidUrl_body. rewrite Hp.
  destruct Hbad as [Hscheme|[Hip Hdom]].
  - rewrite Hscheme. reflexivity.
  - destruct (negb (array_includes _ (protocol parsedUrl))); [reflexivity|].
    simpl. rewrite Hip, Hdom. reflexivity.
Qed.

End UrlFacts.

Lemma isValidUrl_never_throws_witness :
  isValidUrl default_config sample_URL_new "not a url" = Normal false
  /\ isValidUrl default_config sample_URL_new "ftp://example.com/a.png" = Normal false.
Proof.
  split.
  - apply (proj1 (proj2 (isValidUrl_never_throws default_config sample_URL_new
                           "not a url")) (Error "Invalid URL")).
    reflexivity.
  - apply (proj2 (proj2 (isValidUrl_never_throws default_config sample_URL_new
                           "ftp://example.com/a.png"))
             {| protocol := "ftp:"; hostname := "example.com" |}).
    + reflexivity.
    + discriminate.
    + discriminate.
Defined.

Section SchemaFacts.

Variable isUri : string -> bool.
Variable number_of_string : string -> option Q.

Local Abbreviation validate_value := (Joi.validate_value isUri number_of_string).
Local Abbreviation validate_keys := (Joi.validate_keys isUri number_of_string).

Lemma validate_keys_pass keys (data : JsObject) :
  validate_keys keys data = None ->
  forall k sch, In (k, sch) keys -> validate_value sch (data !! k) = None.
Proof.
  induction keys as [|[k0 sch0] keys IH]; simpl; intros Hv k sch Hin.
  - contradiction.
  - destruct (validate_value sch0 (data !! k0)) eqn:Hv0; [discriminate|].
    destruct Hin as [Heq|Hin]; [|eauto].
    inversion Heq; subst. exact Hv0.
Qed.

Lemma validate_keys_fail keys (data : JsObject) k sch c :
  In (k, sch) keys -> validate_value sch (data !! k) = Some c ->
  validate_keys keys data <> None.
Proof.
  intros Hin Hc Hnone.
  rewrite (validate_keys_pass keys data Hnone k sch Hin) in Hc. discriminate.
Qed.

Lemma validateJson_key_fails (data : JsObject) k sch c :
  In (k, sch) videoRequestSchema -> validate_value sch (data !! k) = Some c ->
  isValid (validateJson isUri number_of_string data) = false.
Proof.
  intros Hin Hc. unfold validateJson, Joi.object_validate.
  destruct (validate_keys videoRequestSchema data) eqn:Hk; [reflexivity|].
  exfalso. exact (validate_keys_fail _ _ _ _ _ Hin Hc Hk).
Qed.

Lemma validateJson_key_passes (data : JsObject) k sch :
  isValid (validateJson isUri number_of_string data) = true ->
  In (k, sch) videoRequestSchema -> validate_value sch (data !! k) = None.
Proof.
  unfold validateJson, Joi.object_validate. intros Hv Hin.
  destruct (validate_keys videoRequestSchema data) eqn:Hk; [discriminate|].
  exact (validate_keys_pass _ _ Hk k sch Hin).
Qed.

(** A request that passes the schema has a non-empty string [input_url]. *)
Lemma validateJson_input_url (data : JsObject) :
  isValid (validateJson isUri number_of_string data) = true ->
  exists input_url, data !! "input_url" = Some (JStr input_url) /\ input_url <> "".
Proof.
  intros Hv.
  assert (Hin : In ("input_url", Joi.string |> Joi.uri |> Joi.required)
                   videoRequestSchema) by (cbv; tauto).
  pose proof (validateJson_key_passes data _ _ Hv Hin) as Hk.
  unfold Joi.validate_value in Hk. cbn in Hk.
  destruct (data !! "input_url") as [[| | |s|]|]; try discriminate.
  exists s. split; [reflexivity|].
  intros ->. discriminate.
Qed.

(** A request that passes the schema has no [webhook_url] or a non-empty
    string. *)
Lemma validateJson_webhook_url (data : JsObject) webhook_url :
  isValid (validateJson isUri number_of_string data) = true ->
  data !! "webhook_url" = Some (JStr webhook_url) -> webhook_url <> "".
Proof.
  intros Hv Hw.
  assert (Hin : In ("webhook_url", Joi.string |> Joi.uri |> Joi.optional)
                   videoRequestSchema) by (cbv; tauto).
  pose proof (validateJson_key_passes data _ _ Hv Hin) as Hk.
  unfold Joi.validate_value in Hk. rewrite Hw in Hk. cbn in Hk.
  intros ->. discriminate.
Qed.

End SchemaFacts.

(** ** The route *)

Section RouteFacts.

Variable config : Config.
Variable URL_new : string -> Completion URL.
Variable isUri : string -> bool.
Variable number_of_string : string -> option Q.
Variable env : HandlerEnv.

Local Abbreviation handler :=
  (create_video config URL_new isUri number_of_string env).
Local Abbreviation schema_ok data :=
  (isValid (validateJson isUri number_of_string data)).

Lemma create_video_schema_violation (data : JsObject) (w : World) :
  schema_ok data = false ->
  handler data w = (error_response 400 "Invalid input data", w).
Proof.
  intros Hv. unfold create_video, create_video_body. rewrite Hv. reflexivity.
Qed.

Lemma create_video_input_url_refused (data : JsObject) (w : World) input_url :
  schema_ok data = true ->
  data !! "input_url" = Some (JStr input_url) ->
  isValidUrl config URL_new input_url = Normal false ->
  handler data w = (error_response 400 "Invalid input URL", w).
Proof.
  intros Hv Hin Hurl. unfold create_video, create_video_body.
  rewrite Hv, Hin. run_unfold. rewrite Hurl. reflexivity.
Qed.

Lemma create_video_webhook_url_refused (data : JsObject) (w : World)
      input_url webhook_url :
  schema_ok data = true ->
  data !! "input_url" = Some (JStr input_url) ->
  isValidUrl config URL_new input_url = Normal true ->
  data !! "webhook_url" = Some (JStr webhook_url) ->
  isValidUrl config URL_new webhook_url = Normal false ->
  handler data w = (error_response 400 "Invalid webhook URL", w).
Proof.
  intros Hv Hin Hurl Hw Hhook.
  pose proof (validateJson_webhook_url _ _ _ _ Hv Hw) as Hne.
  apply String.eqb_neq in Hne.
  unfold create_video, create_video_body, webhook_url_rejected.
  rewrite Hv, Hin, Hw, Hne. run_unfold. rewrite Hurl. simpl.
  rewrite Hhook. reflexivity.
Qed.

(** A request that passed every check goes on to the download. *)
Lemma create_video_accepted (data : JsObject) (w : World) input_url :
  schema_ok data = true ->
  data !! "input_url" = Some (JStr input_url) ->
  isValidUrl config URL_new input_url = Normal true ->
  (forall webhook_url, data !! "webhook_url" = Some (JStr webhook_url) ->
     isValidUrl config URL_new webhook_url = Normal true) ->
  handler data w
  = match download_and_enqueue config env data input_url w with
    | (Normal r, w') => (r, w')
    | (Throw _, w') => (error_response 500 "Internal server error", w')
    end.
Proof.
  intros Hv Hin Hurl Hhook.
  unfold create_video, create_video_body, webhook_url_rejected.
  rewrite Hv, Hin. run_unfold. rewrite Hurl. simpl.
  destruct (data !! "webhook_url") as [[| | |h|]|] eqn:Hw; try reflexivity.
  destruct (String.eqb h ""); [reflexivity|].
  rewrite (Hhook h eq_refl). reflexivity.
Qed.

(** C7: the schema is checked first, then the allow-list for [input_url],
    then for [webhook_url]; the first violation ends the request with
    nothing downloaded or enqueued, and a schema violation is answered
    with a different error than a refused URL. *)
Theorem validation_order (data : JsObject) (w : World) :
  (schema_ok data = false ->
     handler data w = (error_response 400 "Invalid input data", w))
  /\ (schema_ok data = true ->
      exists input_url,
        data !! "input_url" = Some (JStr input_url)
        /\ (isValidUrl config URL_new input_url = Normal false ->
            handler data w = (error_response 400 "Invalid input URL", w))
        /\ (isValidUrl config URL_new input_url = Normal true ->
            forall webhook_url,
              data !! "webhook_url" = Some (JStr webhook_url) ->
              isValidUrl config URL_new webhook_url = Normal false ->
              handler data w = (error_response 400 "Invalid webhook URL", w)))
  /\ error_response 400 "Invalid input data" <> error_response 400 "Invalid input URL"
  /\ error_response 400 "Invalid input data" <> error_response 400 "Invalid webhook URL".
Proof.
  split; [apply create_video_schema_violation|].
  split; [|split; discriminate].
  intros Hv.
  destruct (validateJson_input_url _ _ _ Hv) as (input_url & Hin & _).
  exists input_url. split; [exact Hin|]. split.
  - intros Hurl. eapply create_video_input_url_refused; eassumption.
  - intros Hurl webhook_url Hw Hhook.
    eapply create_video_webhook_url_refused; eassumption.
Qed.

(** C8: a request is refused, with nothing downloaded or enqueued, when
    its [record_id] is a string that does not match [^[0-9A-Za-z]+$], when
    its [duration] is a number outside (0, 60], when its [zoom] is a
    number outside [-100, 100], and when its [input_url] parses to a URL
    whose scheme is not http/https or whose host is in neither
    allow-list. *)
Theorem validator_rejects (data : JsObject) (w : World) :
  (forall s, data !! "record_id" = Some (JStr s) -> isValidRecordId s = false ->
     handler data w = (error_response 400 "Invalid input data", w))
  /\ (forall v q, data !! "duration" = Some v ->
        Joi.as_number number_of_string v = Some q ->
        ~ (0 < q /\ q <= 60)%Q ->
        handler data w = (error_response 400 "Invalid input data", w))
  /\ (forall v q, data !! "zoom" = Some v ->
        Joi.as_number number_of_string v = Some q ->
        ~ (-100 <= q /\ q <= 100)%Q ->
        handler data w = (error_response 400 "Invalid input data", w))
  /\ (forall input_url parsedUrl,
        data !! "input_url" = Some (JStr input_url) ->
        URL_new input_url = Normal parsedUrl ->
        array_includes ["http:"; "https:"] (protocol parsedUrl) = false
        \/ (array_includes (allowedIPs_flat config) (hostname parsedUrl) = false
            /\ array_includes (allowedDomains config) (hostname parsedUrl) = false) ->
        isValidUrl config URL_new input_url = Normal false
        /\ status (fst (handler data w)) = 400
        /\ snd (handler data w) = w).
Proof.
  split; [|split; [|split]].
  - intros s Hid Hbad. apply create_video_schema_violation.
    assert (exists c, Joi.validate_value isUri number_of_string
              (Joi.string |> Joi.alphanum |> Joi.required)
              (data !! "record_id") = Some c) as [c Hc].
    { rewrite Hid. unfold Joi.validate_value. cbn.
      unfold isValidRecordId, alnum_plus in Hbad.
      destruct (String.eqb s "") eqn:Hs; [eauto|].
      simpl in Hbad. unfold alnum_plus. rewrite Hs. simpl. rewrite Hbad.
      eauto. }
    eapply validateJson_key_fails; [|exact Hc]. cbv. tauto.
  - intros v q Hd Hq Hrange. apply create_video_schema_violation.
    assert (exists c, Joi.validate_value isUri number_of_string
              (Joi.number |> Joi.positive |> Joi.max 60 |> Joi.required)
              (data !! "duration") = Some c) as [c Hc].
    { rewrite Hd. unfold Joi.validate_value. cbn. rewrite Hq.
      destruct (_ || _); [eauto|]. cbn.
      destruct (Qlt_bool 0 q) eqn:Hpos; [|eauto].
      destruct (Qle_bool q 60) eqn:Hmax; [|eauto].
      exfalso. apply Hrange.
      apply Qlt_bool_iff in Hpos. apply Qle_bool_iff in Hmax. auto. }
    eapply validateJson_key_fails; [|exact Hc]. cbv. tauto.
  - intros v q Hz Hq Hrange. apply create_video_schema_violation.
    assert (exists c, Joi.validate_value isUri number_of_string
              (Joi.number |> Joi.min (-100) |> Joi.max 100 |> Joi.required)
              (data !! "zoom") = Some c) as [c Hc].
    { rewrite Hz. unfold Joi.validate_value. cbn. rewrite Hq.
      destruct (_ || _); [eauto|]. cbn.
      destruct (Qle_bool (-100) q) eqn:Hmin; [|eauto].
      destruct (Qle_bool q 100) eqn:Hmax; [|eauto].
      exfalso. apply Hrange.
      apply Qle_bool_iff in Hmin, Hmax. auto. }
    eapply validateJson_key_fails; [|exact Hc]. cbv. tauto.
  - intros input_url parsedUrl Hin Hp Hbad.
    pose proof (isValidUrl_refuses config URL_new _ _ Hp Hbad) as Hurl.
    split; [exact Hurl|].
    destruct (schema_ok data) eqn:Hv.
    + rewrite (create_video_input_url_refused data w input_url Hv Hin Hurl).
      split; reflexivity.
    + rewrite (create_video_schema_violation data w Hv). split; reflexivity.
Qed.

End RouteFacts.

Section AcquisitionFacts.

Variable config : Config.
Variable URL_new : string -> Completion URL.
Variable isUri : string -> bool.
Variable number_of_string : string -> option Q.
Variable env : HandlerEnv.

Local Abbreviation cached := (path_join (cacheDir config) (cache_filename env)).

Lemma ensureDirectoryExists_returns (dirPath : string) (w : World) :
  exists files,
    ensureDirectoryExists dirPath w = (Normal tt, set_fs (fun _ => files) w)
    /\ fs w ⊆ files /\ files ⊆ fs w ∪ {[dirPath]}.
Proof.
  unfold ensureDirectoryExists, existsSync. run_unfold. simpl.
  case_bool_decide.
  - exists (fs w). destruct w; simpl. split; [reflexivity|]. split; set_solver.
  - exists (fs w ∪ {[dirPath]}). split; [reflexivity|]. split; set_solver.
Qed.

Local Ltac acquire_done :=
  repeat split; auto;
  try solve [ set_solver
            | intros; congruence
            | intros [(? & ?) | (? & ? & ?)]; congruence ].

(** What a failed acquisition leaves behind. *)
Lemma acquire_failure (input_url : string) (w w' : World) (r : Response) :
  acquire config env input_url w = (Normal (Returned r), w') ->
  (r = error_response 400 "Invalid file type"
   \/ r = error_response 400 "Failed to download input file")
  /\ queue w' = queue w
  /\ fs w ⊆ fs w'
  /\ (forall contentType,
        axios_get env input_url = GetResponse contentType ->
        is_json_content_type contentType = false ->
        write_stream env cached = WriteFinish ->
        cached ∈ fs w')
  /\ ((exists e, axios_get env input_url = GetError e)
      \/ (exists contentType,
            axios_get env input_url = GetResponse contentType
            /\ is_json_content_type contentType = true) ->
      fs w' = fs w).
Proof.
  unfold acquire, save_file, probe. run_unfold.
  destruct (axios_get env input_url) as [e|contentType] eqn:Hget.
  - (* the request failed *)
    intros [= <- <-]. acquire_done.
  - destruct (is_json_content_type contentType) eqn:Hjson.
    + (* a JSON answer *)
      intros [= <- <-]. acquire_done.
    + destruct (ensureDirectoryExists_returns (cacheDir config) w)
        as (files & -> & Hsub & _).
      destruct (write_stream env cached) as [|e created] eqn:Hwrite; simpl.
      * (* the file is written; the probe fails *)
        destruct (ffprobe env _) as [e|code out err]; simpl.
        -- intros [= <- <-]. simpl. acquire_done.
        -- case_bool_decide; simpl.
           ++ destruct (parse_dimensions env out) as [[iw ih]|e]; simpl;
                [discriminate|].
              intros [= <- <-]. simpl. acquire_done.
           ++ intros [= <- <-]. simpl. acquire_done.
      * (* the write failed *)
        destruct created; simpl; intros [= <- <-]; simpl; acquire_done.
Qed.

(** The acquisition never throws and leaves the queue alone. *)
Lemma acquire_queue (input_url : string) (w : World) :
  exists a w', acquire config env input_url w = (Normal a, w')
               /\ queue w' = queue w.
Proof.
  unfold acquire, save_file, probe. run_unfold.
  destruct (axios_get env input_url) as [e|contentType]; [eauto|].
  destruct (is_json_content_type contentType); [eauto|].
  destruct (ensureDirectoryExists_returns (cacheDir config) w)
    as (files & -> & _).
  destruct (write_stream env cached) as [|e []]; simpl; eauto.
  destruct (ffprobe env _) as [e|code out err]; simpl; eauto.
  case_bool_decide; simpl; eauto.
  destruct (parse_dimensions env out) as [[iw ih]|e]; simpl; eauto.
Qed.

Lemma download_and_enqueue_queue (data : JsObject) (input_url : string)
      (w w' : World) (r : Response) :
  download_and_enqueue config env data input_url w = (Normal r, w') ->
  status r = 200 ->
  exists job,
    queue w' = queue w ++ [job]
    /\ job_name job = "createVideo"
    /\ pd_request (job_data job) = data
    /\ job_opts job = createVideo_options.
Proof.
  unfold download_and_enqueue. run_unfold.
  destruct (acquire_queue input_url w) as (a & w1 & Ha & Hq). rewrite Ha.
  destruct a as [r0|cachedInputFile inputWidth inputHeight].
  - intros [= <- <-] Hst.
    destruct (acquire_failure input_url w w1 r0 Ha) as ([-> | ->] & _);
      discriminate.
  - unfold enqueue_and_respond. run_unfold.
    destruct (ensureDirectoryExists_returns (moviesDir config) w1)
      as (files & -> & _).
    destruct (queue_add_error env); simpl; [discriminate|].
    intros [= <- <-] _. eexists. simpl. rewrite Hq.
    split; [reflexivity|]. repeat split.
Qed.

(** Every request answered 200 has added exactly one job to the queue,
    named [createVideo], carrying the request, with three attempts and an
    exponential backoff of 2000 ms in its options. *)
Lemma create_video_enqueues (data : JsObject) (w w' : World) (r : Response) :
  create_video config URL_new isUri number_of_string env data w = (r, w') ->
  status r = 200 ->
  exists job,
    queue w' = queue w ++ [job]
    /\ job_name job = "createVideo"
    /\ pd_request (job_data job) = data
    /\ attempts (job_opts job) = 3
    /\ backoff_type (job_opts job) = exponential
    /\ backoff_delay (job_opts job) = 2000.
Proof.
  intros Hrun Hst.
  assert (Hjob : exists input_url,
             download_and_enqueue config env data input_url w = (Normal r, w')).
  { revert Hrun. unfold create_video, create_video_body, webhook_url_rejected.
    run_unfold.
    destruct (isValid _); simpl;
      [|intros [= <- <-]; discriminate Hst].
    destruct (data !! "input_url") as [[| | |u|]|];
      try (intros [= <- <-]; discriminate Hst).
    destruct (isValidUrl_total config URL_new u) as [[] ->]; simpl;
      [|intros [= <- <-]; discriminate Hst].
    assert (Hnext :
      match download_and_enqueue config env data u w with
      | (Normal r0, w1) => (r0, w1)
      | (Throw _, w1) => (error_response 500 "Internal server error", w1)
      end = (r, w') ->
      exists input_url,
        download_and_enqueue config env data input_url w = (Normal r, w')).
    { destruct (download_and_enqueue config env data u w) as [[r0|e] w1] eqn:Hd;
        intros [= <- <-]; [exists u; exact Hd|discriminate Hst]. }
    destruct (data !! "webhook_url") as [[| | |h|]|]; try exact Hnext.
    destruct (String.eqb h ""); [exact Hnext|].
    destruct (isValidUrl_total config URL_new h) as [[] ->]; simpl;
      [exact Hnext|intros [= <- <-]; discriminate Hst]. }
  destruct Hjob as (input_url & Hdl).
  destruct (download_and_enqueue_queue data input_url w w' r Hdl Hst)
    as (job & Hq & Hname & Hdata & Hopts).
  exists job. rewrite Hopts. repeat split; assumption.
Qed.

(** C4 (amended): when the acquisition of a validated request fails, the
    caller receives a 400 response ("Invalid file type" or "Failed to
    download input file") and no job is enqueued; no file is removed from
    the cache: nothing is written when the download request fails or the
    answer is JSON, and a file whose write finished stays in the cache
    directory when the probe fails. *)
Theorem acquisition_failure_response (data : JsObject) (input_url : string)
        (w w' : World) (r : Response) :
  isValid (validateJson isUri number_of_string data) = true ->
  data !! "input_url" = Some (JStr input_url) ->
  isValidUrl config URL_new input_url = Normal true ->
  (forall webhook_url, data !! "webhook_url" = Some (JStr webhook_url) ->
     isValidUrl config URL_new webhook_url = Normal true) ->
  acquire config env input_url w = (Normal (Returned r), w') ->
  create_video config URL_new isUri number_of_string env data w = (r, w')
  /\ (r = error_response 400 "Invalid file type"
      \/ r = error_response 400 "Failed to download input file")
  /\ queue w' = queue w
  /\ fs w ⊆ fs w'
  /\ (forall contentType,
        axios_get env input_url = GetResponse contentType ->
        is_json_content_type contentType = false ->
        write_stream env cached = WriteFinish ->
        cached ∈ fs w')
  /\ ((exists e, axios_get env input_url = GetError e)
      \/ (exists contentType,
            axios_get env input_url = GetResponse contentType
            /\ is_json_content_type contentType = true) ->
      fs w' = fs w).
Proof.
  intros Hv Hin Hurl Hhook Hacq.
  split; [|exact (acquire_failure input_url w w' r Hacq)].
  rewrite (create_video_accepted config URL_new isUri number_of_string env
             data w input_url Hv Hin Hurl Hhook).
  unfold download_and_enqueue. run_unfold. rewrite Hacq. reflexivity.
Qed.

End AcquisitionFacts.

(** The sample request passes every check of the route. *)
Lemma sample_request_accepted :
  isValid (validateJson sample_isUri sample_number_of_string sample_request) = true
  /\ sample_request !! "input_url" = Some (JStr "https://example.com/a.png")
  /\ isValidUrl default_config sample_URL_new "https://example.com/a.png" = Normal true
  /\ (forall webhook_url,
        sample_request !! "webhook_url" = Some (JStr webhook_url) ->
        isValidUrl default_config sample_URL_new webhook_url = Normal true).
Proof.
  repeat split; try (vm_compute; reflexivity).
  intros webhook_url Hw. vm_compute in Hw.
  injection Hw as <-. vm_compute. reflexivity.
Defined.

Lemma validation_order_witness :
  create_video default_config sample_URL_new sample_isUri sample_number_of_string
    (sample_handler_env (GetError (Error "unreachable")) WriteFinish
       (ProcessError (Error "unreachable")))
    (with_key "duration" (JNum 61)
       (with_key "input_url" (JStr "https://evil.example/a.png") sample_request))
    empty_world
  = (error_response 400 "Invalid input data", empty_world)
  /\ create_video default_config sample_URL_new sample_isUri sample_number_of_string
       (sample_handler_env (GetError (Error "unreachable")) WriteFinish
          (ProcessError (Error "unreachable")))
       (with_key "input_url" (JStr "https://evil.example/a.png") sample_request)
       empty_world
     = (error_response 400 "Invalid input URL", empty_world).
Proof.
  split.
  - apply (proj1 (validation_order default_config sample_URL_new sample_isUri
                    sample_number_of_string _ _ empty_world)).
    vm_compute. reflexivity.
  - destruct (proj1 (proj2 (validation_order default_config sample_URL_new
                sample_isUri sample_number_of_string
                (sample_handler_env (GetError (Error "unreachable")) WriteFinish
                   (ProcessError (Error "unreachable")))
                (with_key "input_url" (JStr "https://evil.example/a.png") sample_request)
                empty_world)) ltac:(vm_compute; reflexivity))
      as (input_url & Hin & Hrefused & _).
    apply Hrefused.
    vm_compute in Hin. injection Hin as <-. vm_compute. reflexivity.
Defined.

Lemma validator_rejects_witness :
  let handler :=
    create_video default_config sample_URL_new sample_isUri sample_number_of_string
      (sample_handler_env (GetError (Error "unreachable")) WriteFinish
         (ProcessError (Error "unreachable"))) in
  handler (with_key "record_id" (JStr "bad id!") sample_request) empty_world
  = (error_response 400 "Invalid input data", empty_world)
  /\ handler (with_key "duration" (JNum 61) sample_request) empty_world
     = (error_response 400 "Invalid input data", empty_world)
  /\ handler (with_key "zoom" (JNum 150) sample_request) empty_world
     = (error_response 400 "Invalid input data", empty_world)
  /\ status (fst (handler (with_key "input_url" (JStr "https://evil.example/a.png")
                            sample_request) empty_world)) = 400.
Proof.
  intros handler. subst handler. split; [|split; [|split]].
  - apply (proj1 (validator_rejects default_config sample_URL_new sample_isUri
                    sample_number_of_string _ _ empty_world) "bad id!");
      vm_compute; reflexivity.
  - apply (proj1 (proj2 (validator_rejects default_config sample_URL_new
                           sample_isUri sample_number_of_string _ _ empty_world))
             (JNum 61) 61%Q).
    + vm_compute. reflexivity.
    + reflexivity.
    + unfold Qlt, Qle. simpl. lia.
  - apply (proj1 (proj2 (proj2 (validator_rejects default_config sample_URL_new
                           sample_isUri sample_number_of_string _ _ empty_world)))
             (JNum 150) 150%Q).
    + vm_compute. reflexivity.
    + reflexivity.
    + unfold Qle. simpl. lia.
  - apply (proj2 (proj2 (proj2 (validator_rejects default_config sample_URL_new
                           sample_isUri sample_number_of_string _ _ empty_world)))
             "https://evil.example/a.png"
             {| protocol := "https:"; hostname := "evil.example" |}).
    + vm_compute. reflexivity.
    + vm_compute. reflexivity.
    + right. split; vm_compute; reflexivity.
Defined.

(** C4, as stated, fails: when the probe exits with code 1 after the
    download, and when the write of the cached file breaks off after the
    file was created, the caller receives the 400 response but the file is
    still in the cache directory. *)
Lemma acquisition_failure_leaves_file :
  let probe_failed :=
    create_video default_config sample_URL_new sample_isUri sample_number_of_string
      (sample_handler_env (GetResponse (Some "image/png")) WriteFinish
         (ProcessClose (Some 1) "" "Invalid data found"))
      sample_request empty_world in
  let write_failed :=
    create_video default_config sample_URL_new sample_isUri sample_number_of_string
      (sample_handler_env (GetResponse (Some "image/png"))
         (WriteError (Error "ENOSPC") true)
         (ProcessError (Error "unreachable")))
      sample_request empty_world in
  fst probe_failed = error_response 400 "Failed to download input file"
  /\ "cache/aaaaaaaaaaaaaaaa.mp4" ∈ fs (snd probe_failed)
  /\ queue (snd probe_failed) = []
  /\ fst write_failed = error_response 400 "Failed to download input file"
  /\ "cache/aaaaaaaaaaaaaaaa.mp4" ∈ fs (snd write_failed).
Proof.
  repeat split; try (vm_compute; reflexivity);
    apply bool_decide_unpack; vm_compute; exact I.
Qed.

Lemma acquisition_failure_response_witness :
  let env :=
    sample_handler_env (GetResponse (Some "image/png")) WriteFinish
      (ProcessClose (Some 1) "" "Invalid data found") in
  let w' := snd (acquire default_config env "https://example.com/a.png" empty_world) in
  create_video default_config sample_URL_new sample_isUri sample_number_of_string
    env sample_request empty_world
  = (error_response 400 "Failed to download input file", w')
  /\ queue w' = queue empty_world.
Proof.
  intros env w'.
  destruct sample_request_accepted as (Hv & Hin & Hurl & Hhook).
  destruct (acquisition_failure_response default_config sample_URL_new
              sample_isUri sample_number_of_string env sample_request
              "https://example.com/a.png" empty_world w'
              (error_response 400 "Failed to download input file")
              Hv Hin Hurl Hhook ltac:(vm_compute; reflexivity))
    as (Hresp & _ & Hqueue & _).
  split; assumption.
Defined.

(** * Further properties of the code *)

(** ** Strings *)

Lemma append_cons (c : ascii) (s1 s2 : string) :
  String c s1 +:+ s2 = String c (s1 +:+ s2).
Proof. reflexivity. Qed.

Lemma append_empty_l (s : string) : "" +:+ s = s.
Proof. reflexivity. Qed.

Lemma append_assoc (s1 s2 s3 : string) : (s1 +:+ s2) +:+ s3 = s1 +:+ (s2 +:+ s3).
Proof.
  induction s1 as [|c s1 IH]; [reflexivity|].
  rewrite !append_cons, IH. reflexivity.
Qed.

Lemma append_empty_r (s : string) : s +:+ "" = s.
Proof.
  induction s as [|c s IH]; [reflexivity|].
  rewrite append_cons, IH. reflexivity.
Qed.

Lemma length_append (s1 s2 : string) :
  String.length (s1 +:+ s2) = (String.length s1 + String.length s2)%nat.
Proof.
  induction s1 as [|c s1 IH]; [reflexivity|].
  rewrite append_cons. simpl. rewrite IH. reflexivity.
Qed.

Lemma all_chars_append (p : ascii -> bool) (s1 s2 : string) :
  all_chars p (s1 +:+ s2) = all_chars p s1 && all_chars p s2.
Proof.
  induction s1 as [|c s1 IH]; [reflexivity|].
  rewrite append_cons. simpl. rewrite IH. apply andb_assoc.
Qed.

Lemma array_includes_In (arr : list string) (x : string) :
  array_includes arr x = true <-> In x arr.
Proof.
  unfold array_includes. rewrite existsb_exists. split.
  - intros (y & Hin & Heq). apply String.eqb_eq in Heq. subst. exact Hin.
  - intros Hin. exists x. split; [exact Hin|apply String.eqb_refl].
Qed.

(** ** utils/index.ts *)

(** Every index inside the alphabet reads one letter or digit. *)
Lemma char_at_characters (index : Z) :
  0 <= index < 62 ->
  exists c, char_at characters index = String c EmptyString /\ is_alnum c = true.
Proof.
  intros Hrange.
  assert (Hall : forallb (fun k =>
            match String.get k characters with
            | Some c => is_alnum c
            | None => false
            end) (seq 0 62) = true) by (vm_compute; reflexivity).
  rewrite forallb_forall in Hall.
  specialize (Hall (Z.to_nat index)).
  unfold char_at. destruct (Z.ltb_spec index 0) as [Hneg|_]; [lia|].
  destruct (String.get (Z.to_nat index) characters) as [c|].
  - exists c. split; [reflexivity|]. apply Hall. apply in_seq. lia.
  - discriminate Hall. apply in_seq. lia.
Qed.

Section RandomFilenameFacts.

Variable random : nat -> Q.




End RandomFilenameFacts.

Section SecureRandomFilenameFacts.

Variable bytes : list Z.

Lemma generateSecureRandomFilename_loop_shape (remaining i : nat) (result : string) :
  (i + remaining <= List.length bytes)%nat ->
  Forall (fun b => 0 <= b < 256) bytes ->
  exists suffix,
    generateSecureRandomFilename_loop bytes remaining i result = result +:+ suffix
    /\ String.length suffix = remaining
    /\ all_chars is_alnum suffix = true.
Proof.
  intros Hlen Hbytes. revert i result Hlen.
  induction remaining as [|remaining IH]; intros i result Hlen;
    cbn [generateSecureRandomFilename_loop].
  - exists "". rewrite append_empty_r. auto.
  - destruct (nth_error bytes i) as [b|] eqn:Hb;
      [|apply nth_error_None in Hb; lia].
    assert (Hrange : 0 <= b < 256).
    { rewrite List.Forall_forall in Hbytes. apply Hbytes.
      eapply nth_error_In. exact Hb. }
    destruct (char_at_characters (Z.rem b (Z.of_nat (String.length characters))))
      as (c & Hc & Halnum).
    { change (Z.of_nat (String.length characters)) with 62.
      rewrite Z.rem_mod_nonneg by lia. apply Z.mod_pos_bound. lia. }
    rewrite Hc.
    destruct (IH (S i) (result +:+ String c "") ltac:(lia))
      as (suffix & Hloop & Hsuffix & Hall).
    exists (String c suffix).
    rewrite Hloop, append_assoc, append_cons, append_empty_l. simpl.
    rewrite Hsuffix, Halnum, Hall. auto.
Qed.

(** X2: on a buffer of at least [length] bytes (each in 0..255), the secure
    generator returns [length] letters and digits followed by [.mp4],
    whatever the bytes are. *)
Theorem generateSecureRandomFilename_shape (length : nat) :
  (length <= List.length bytes)%nat ->
  Forall (fun b => 0 <= b < 256) bytes ->
  exists name,
    generateSecureRandomFilename bytes length = name +:+ ".mp4"
    /\ String.length name = length
    /\ all_chars is_alnum name = true.
Proof.
  intros Hlen Hbytes. unfold generateSecureRandomFilename.
  destruct (generateSecureRandomFilename_loop_shape length 0 "" Hlen Hbytes)
    as (suffix & Hloop & Hsuffix & Hall).
  exists suffix. rewrite Hloop, append_empty_l. auto.
Qed.

End SecureRandomFilenameFacts.

(** ** validation/index.ts: the schema *)

Section SchemaCharacterisation.

Variable isUri : string -> bool.
Variable number_of_string : string -> option Q.

Local Abbreviation validate_value := (Joi.validate_value isUri number_of_string).
Local Abbreviation validate_keys := (Joi.validate_keys isUri number_of_string).
Local Abbreviation schema_ok data :=
  (isValid (validateJson isUri number_of_string data)).

Lemma validate_keys_all keys (data : JsObject) :
  validate_keys keys data = None
  <-> (forall k sch, In (k, sch) keys -> validate_value sch (data !! k) = None).
Proof.
  split; [apply validate_keys_pass|].
  induction keys as [|[k0 sch0] keys IH]; simpl; intros Hall; [reflexivity|].
  rewrite (Hall k0 sch0) by auto. apply IH. intros k sch Hin. apply Hall. auto.
Qed.

Lemma unknown_keys_nil keys (data : JsObject) :
  Joi.unknown_keys keys data = []
  <-> (forall k, is_Some (data !! k) -> k ∈ (fst <$> keys)).
Proof.
  unfold Joi.unknown_keys. split.
  - intros Hnil k Hk.
    destruct (decide (k ∈ (fst <$> keys))) as [Hin|Hnot]; [exact Hin|].
    exfalso. eapply (filter_nil_not_elem_of _ _ k Hnil); [exact Hnot|].
    apply elem_of_elements, elem_of_dom. exact Hk.
  - intros Hall.
    destruct (filter _ _) as [|k rest] eqn:Hf; [reflexivity|].
    assert (Hk : k ∈ filter (fun k => k ∉ (fst <$> keys)) (elements (dom data)))
      by (rewrite Hf; left).
    apply list_elem_of_filter in Hk as [Hnot Hin].
    exfalso. apply Hnot, Hall. apply elem_of_dom, elem_of_elements. exact Hin.
Qed.

(** A request passes the schema exactly when each declared key passes its
    rules and no other key is present. *)
Lemma validateJson_valid_iff (data : JsObject) :
  schema_ok data = true
  <-> (forall k sch, In (k, sch) videoRequestSchema ->
         validate_value sch (data !! k) = None)
      /\ (forall k, is_Some (data !! k) -> k ∈ (fst <$> videoRequestSchema)).
Proof.
  rewrite <- validate_keys_all, <- unknown_keys_nil.
  unfold validateJson, Joi.object_validate.
  destruct (validate_keys videoRequestSchema data); simpl.
  - split; [discriminate|]. intros [[=] _].
  - destruct (Joi.unknown_keys videoRequestSchema data); simpl.
    + split; auto.
    + split; [discriminate|]. intros [_ [=]].
Qed.

(** X3: a request that carries a key the schema does not declare is
    refused, whatever its other fields are. *)
Theorem validateJson_rejects_unknown_key (data : JsObject) (k : string) (v : JsValue) :
  data !! k = Some v ->
  ~ In k [ "record_id"; "input_url"; "webhook_url"; "framerate"; "duration";
           "cache"; "zoom"; "crop"; "output_width"; "output_height" ] ->
  isValid (validateJson isUri number_of_string data) = false.
Proof.
  intros Hk Hnot. apply not_true_is_false. intros Hv.
  apply validateJson_valid_iff in Hv as [_ Hknown].
  apply Hnot. apply list_elem_of_In. apply (Hknown k). rewrite Hk. eauto.
Qed.

(** X4: a request without one of the nine required keys is refused;
    [webhook_url] alone may be left out: taking it away from an accepted
    request leaves an accepted request. *)
Theorem validateJson_required_keys (data : JsObject) :
  (forall k,
     In k [ "record_id"; "input_url"; "framerate"; "duration"; "cache"; "zoom";
            "crop"; "output_width"; "output_height" ] ->
     data !! k = None ->
     isValid (validateJson isUri number_of_string data) = false)
  /\ (isValid (validateJson isUri number_of_string data) = true ->
      isValid (validateJson isUri number_of_string (delete "webhook_url" data))
      = true).
Proof.
  split.
  - intros k Hin Hmissing.
    assert (exists sch, In (k, sch) videoRequestSchema /\ Joi.is_required sch = true)
      as (sch & Hsch & Hreq).
    { simpl in Hin.
      repeat (destruct Hin as [<-|Hin];
              [eexists; split; [cbv; tauto|reflexivity]|]).
      contradiction. }
    eapply validateJson_key_fails; [exact Hsch|].
    rewrite Hmissing. unfold Joi.validate_value. rewrite Hreq. reflexivity.
  - intros Hv. apply validateJson_valid_iff in Hv as [Hpass Hknown].
    apply validateJson_valid_iff. split.
    + intros k sch Hin.
      destruct (decide (k = "webhook_url")) as [->|Hne].
      * rewrite lookup_delete_eq.
        cbv in Hin.
        repeat (destruct Hin as [Hin|Hin];
                [try discriminate Hin; injection Hin as <-; reflexivity|]).
        contradiction.
      * rewrite lookup_delete_ne by congruence. apply Hpass. exact Hin.
    + intros k Hk. apply Hknown.
      destruct (decide (k = "webhook_url")) as [->|Hne].
      * rewrite lookup_delete_eq in Hk. destruct Hk. discriminate.
      * rewrite lookup_delete_ne in Hk by congruence. exact Hk.
Qed.

End SchemaCharacterisation.

Section AcceptedRequests.

Variable isUri : string -> bool.
Variable number_of_string : string -> option Q.

Local Abbreviation schema_ok data :=
  (isValid (validateJson isUri number_of_string data)).
Local Abbreviation as_number := (Joi.as_number number_of_string).

Lemma number_rule_passes (rs : list Joi.Rule) (v : option JsValue) :
  Joi.validate_value isUri number_of_string
    {| Joi.base := Joi.number_; Joi.rules := rs; Joi.is_required := true |} v = None ->
  exists x q, v = Some x /\ as_number x = Some q
              /\ Joi.first_failure Joi.check_number_rule rs q = None.
Proof.
  unfold Joi.validate_value. simpl.
  destruct v as [x|]; [|discriminate].
  destruct (as_number x) as [q|] eqn:Hq; [|discriminate].
  destruct (_ || _); [discriminate|]. intros Hrules. exists x, q. auto.
Qed.

Lemma string_rule_passes (rs : list Joi.Rule) (required : bool) (s : string) :
  Joi.validate_value isUri number_of_string
    {| Joi.base := Joi.string_; Joi.rules := rs; Joi.is_required := required |}
    (Some (JStr s)) = None ->
  s <> "" /\ Joi.first_failure (Joi.check_string_rule isUri) rs s = None.
Proof.
  unfold Joi.validate_value. simpl.
  destruct (String.eqb s "") eqn:Hs; [discriminate|].
  apply String.eqb_neq in Hs. auto.
Qed.

(** X5: every request the schema accepts has an alphanumeric [record_id],
    a non-empty [input_url] in URI form, a positive [framerate], a
    [duration] in (0, 60], a [zoom] in [-100, 100] and positive integer
    output dimensions. *)
Theorem accepted_request_fields (data : JsObject) :
  schema_ok data = true ->
  (exists s, data !! "record_id" = Some (JStr s) /\ isValidRecordId s = true)
  /\ (exists u, data !! "input_url" = Some (JStr u) /\ u <> "" /\ isUri u = true)
  /\ (exists v q, data !! "framerate" = Some v /\ as_number v = Some q
                  /\ (0 < q)%Q)
  /\ (exists v q, data !! "duration" = Some v /\ as_number v = Some q
                  /\ (0 < q)%Q /\ (q <= 60)%Q)
  /\ (exists v q, data !! "zoom" = Some v /\ as_number v = Some q
                  /\ (-100 <= q)%Q /\ (q <= 100)%Q)
  /\ (exists v q, data !! "output_width" = Some v /\ as_number v = Some q
                  /\ (0 < q)%Q /\ Number_isInteger q = true)
  /\ (exists v q, data !! "output_height" = Some v /\ as_number v = Some q
                  /\ (0 < q)%Q /\ Number_isInteger q = true).
Proof.
  intros Hv.
  pose proof (fun k sch Hin =>
                validateJson_key_passes isUri number_of_string data k sch Hv Hin)
    as Hpass.
  repeat apply conj.
  - specialize (Hpass "record_id" _ ltac:(cbv; left; reflexivity)).
    destruct (data !! "record_id") as [[| | |s|]|]; try discriminate Hpass.
    apply string_rule_passes in Hpass as [_ Hrules].
    exists s. split; [reflexivity|]. simpl in Hrules.
    unfold isValidRecordId. destruct (alnum_plus s); [reflexivity|discriminate].
  - specialize (Hpass "input_url" _ ltac:(cbv; right; left; reflexivity)).
    destruct (data !! "input_url") as [[| | |u|]|]; try discriminate Hpass.
    apply string_rule_passes in Hpass as [Hne Hrules].
    exists u. split; [reflexivity|]. split; [exact Hne|]. simpl in Hrules.
    destruct (isUri u); [reflexivity|discriminate].
  - specialize (Hpass "framerate" _ ltac:(cbv; do 3 right; left; reflexivity)).
    apply number_rule_passes in Hpass as (v & q & Hk & Hq & Hrules).
    exists v, q. split; [exact Hk|]. split; [exact Hq|]. simpl in Hrules.
    destruct (Qlt_bool 0 q) eqn:Hpos; [|discriminate].
    apply Qlt_bool_iff. exact Hpos.
  - specialize (Hpass "duration" _ ltac:(cbv; do 4 right; left; reflexivity)).
    apply number_rule_passes in Hpass as (v & q & Hk & Hq & Hrules).
    exists v, q. split; [exact Hk|]. split; [exact Hq|]. simpl in Hrules.
    destruct (Qlt_bool 0 q) eqn:Hpos; [|discriminate].
    destruct (Qle_bool q 60) eqn:Hmax; [|discriminate].
    split; [apply Qlt_bool_iff|apply Qle_bool_iff]; assumption.
  - specialize (Hpass "zoom" _ ltac:(cbv; do 6 right; left; reflexivity)).
    apply number_rule_passes in Hpass as (v & q & Hk & Hq & Hrules).
    exists v, q. split; [exact Hk|]. split; [exact Hq|]. simpl in Hrules.
    destruct (Qle_bool (-100) q) eqn:Hmin; [|discriminate].
    destruct (Qle_bool q 100) eqn:Hmax; [|discriminate].
    split; apply Qle_bool_iff; assumption.
  - specialize (Hpass "output_width" _ ltac:(cbv; do 8 right; left; reflexivity)).
    apply number_rule_passes in Hpass as (v & q & Hk & Hq & Hrules).
    exists v, q. split; [exact Hk|]. split; [exact Hq|]. simpl in Hrules.
    destruct (Qlt_bool 0 q) eqn:Hpos; [|discriminate].
    unfold Number_isInteger.
    destruct (Qden (Qred q)); try discriminate Hrules.
    split; [apply Qlt_bool_iff; exact Hpos|reflexivity].
  - specialize (Hpass "output_height" _ ltac:(cbv; do 9 right; left; reflexivity)).
    apply number_rule_passes in Hpass as (v & q & Hk & Hq & Hrules).
    exists v, q. split; [exact Hk|]. split; [exact Hq|]. simpl in Hrules.
    destruct (Qlt_bool 0 q) eqn:Hpos; [|discriminate].
    unfold Number_isInteger.
    destruct (Qden (Qred q)); try discriminate Hrules.
    split; [apply Qlt_bool_iff; exact Hpos|reflexivity].
Qed.

(** X6: the stand-alone predicates against the schema, on a JSON number:
    [isValidZoomLevel] accepts exactly what the schema's [zoom] rule
    accepts; [isValidDuration] accepts exactly the integers among what the
    schema's [duration] rule accepts. *)
Theorem predicates_against_schema (q : Q) :
  (isValidZoomLevel q = true
   <-> Joi.validate_value isUri number_of_string
         (Joi.number |> Joi.min (-100) |> Joi.max 100 |> Joi.required)
         (Some (JNum q)) = None)
  /\ (isValidDuration q = true
      <-> Joi.validate_value isUri number_of_string
            (Joi.number |> Joi.positive |> Joi.max 60 |> Joi.required)
            (Some (JNum q)) = None
          /\ Number_isInteger q = true).
Proof.
  assert (Hsafe : forall bound : Z, (bound <= 100)%Z -> Qle_bool q (inject_Z bound) = true ->
            Qlt_bool Joi.MAX_SAFE_INTEGER q = false).
  { intros bound Hb Hle. apply not_true_is_false. intros Hlt.
    apply Qlt_bool_iff in Hlt. apply Qle_bool_iff in Hle.
    assert (Hbig : (inject_Z bound < Joi.MAX_SAFE_INTEGER)%Q).
    { unfold Joi.MAX_SAFE_INTEGER. rewrite <- Zlt_Qlt. lia. }
    apply (Qlt_irrefl q).
    eapply Qle_lt_trans; [exact Hle|]. eapply Qlt_trans; eassumption. }
  assert (Hsafe' : forall bound : Z, (-100 <= bound)%Z -> Qle_bool (inject_Z bound) q = true ->
            Qlt_bool q (- Joi.MAX_SAFE_INTEGER) = false).
  { intros bound Hb Hle. apply not_true_is_false. intros Hlt.
    apply Qlt_bool_iff in Hlt. apply Qle_bool_iff in Hle.
    assert (Hbig : (- Joi.MAX_SAFE_INTEGER < inject_Z bound)%Q).
    { unfold Joi.MAX_SAFE_INTEGER. rewrite <- inject_Z_opp, <- Zlt_Qlt. lia. }
    apply (Qlt_irrefl q).
    eapply Qlt_le_trans; [exact Hlt|]. eapply Qle_trans; [|exact Hle].
    apply Qlt_le_weak. exact Hbig. }
  unfold isValidZoomLevel, isValidDuration, Joi.validate_value.
  cbn -[Number_isInteger Qlt_bool Qle_bool Qopp Joi.MAX_SAFE_INTEGER].
  split.
  - destruct (Qle_bool (-100) q) eqn:Hmin, (Qle_bool q 100) eqn:Hmax;
      try rewrite (Hsafe 100 ltac:(lia) Hmax);
      try rewrite (Hsafe' (-100) ltac:(lia) Hmin);
      simpl;
      repeat match goal with
             | |- context [if ?b then _ else _] => destruct b; simpl
             | |- context [?a || ?b] => destruct a; simpl
             end;
      split; solve [reflexivity | discriminate].
  - assert (Hlow : Qlt_bool 0 q = true -> Qlt_bool q (- Joi.MAX_SAFE_INTEGER) = false).
    { intros Hpos. apply (Hsafe' 0 ltac:(lia)). apply Qle_bool_iff.
      apply Qlt_le_weak, Qlt_bool_iff. exact Hpos. }
    destruct (Number_isInteger q), (Qle_bool q 60) eqn:Hmax,
      (Qlt_bool 0 q) eqn:Hpos;
      try rewrite (Hsafe 60 ltac:(lia) Hmax);
      try rewrite (Hlow eq_refl);
      simpl;
      repeat match goal with
             | |- context [if ?b then _ else _] => destruct b; simpl
             | |- context [?a || ?b] => destruct a; simpl
             end;
      (split; [try discriminate; auto | intros [? ?]; try discriminate; auto]).
Qed.

End AcceptedRequests.

(** ** validation/index.ts: URLs and the API key *)

Section UrlAcceptance.

Variable config : Config.
Variable URL_new : string -> Completion URL.

(** X7: a URL is accepted exactly when it parses, its scheme is [http:] or
    [https:], and its host name is, as a whole, one of the allowed IPs or
    one of the allowed domains. *)
Theorem isValidUrl_accepts_iff (url : string) :
  isValidUrl config URL_new url = Normal true
  <-> exists parsedUrl,
        URL_new url = Normal parsedUrl
        /\ (protocol parsedUrl = "http:" \/ protocol parsedUrl = "https:")
        /\ (In (hostname parsedUrl)
              (allowedIPs_LOCAL config ++ allowedIPs_MAKE_US1 config
               ++ allowedIPs_MAKE_EU2 config ++ allowedIPs_MAKE_EU1 config)
            \/ In (hostname parsedUrl) (allowedDomains config)).
Proof.
  unfold isValidUrl, isValidUrl_body, try_catch.
  destruct (URL_new url) as [parsedUrl|e].
  - destruct (array_includes ["http:"; "https:"] (protocol parsedUrl)) eqn:Hscheme;
      simpl.
    + apply array_includes_In in Hscheme.
      destruct (array_includes (allowedIPs_flat config) (hostname parsedUrl)) eqn:Hip;
        simpl.
      * apply array_includes_In in Hip. split; [|reflexivity].
        intros _. exists parsedUrl. split; [reflexivity|].
        split; [|left; exact Hip].
        destruct Hscheme as [H|[H|[]]]; [left|right]; symmetry; exact H.
      * destruct (array_includes (allowedDomains config) (hostname parsedUrl))
          eqn:Hdom; simpl.
        -- apply array_includes_In in Hdom. split; [|reflexivity].
           intros _. exists parsedUrl. split; [reflexivity|].
           split; [|right; exact Hdom].
           destruct Hscheme as [H|[H|[]]]; [left|right]; symmetry; exact H.
        -- split; [discriminate|].
           intros (p & [= <-] & _ & [Hin|Hin]); apply array_includes_In in Hin;
             unfold allowedIPs_flat in Hip; congruence.
    + split; [discriminate|].
      intros (p & [= <-] & Hp & _).
      assert (Hin : In (protocol parsedUrl) ["http:"; "https:"])
        by (destruct Hp as [-> | ->]; simpl; auto).
      apply array_includes_In in Hin. congruence.
  - split; [discriminate|]. intros (p & [=] & _).
Qed.

End UrlAcceptance.

Section ApiKeyFacts.

Variable config : Config.
Variable normalized_join : string -> string -> string.
Variable isDirectory : string -> bool.

Local Abbreviation middleware :=
  (validateApiKey config normalized_join isDirectory).

(** X8: the API-key middleware lets a request through exactly when the
    header is an alphanumeric, non-empty key whose normalised directory
    path starts with the movies directory, exists and is a directory; the
    key is attached to the request only when asked for, and the world is
    left as it was. *)
Theorem validateApiKey_next_iff (passApiKey : bool) (header : option string)
        (w w' : World) (attached : option string) :
  middleware passApiKey header w = (Normal (Next attached), w')
  <-> exists apiKey,
        header = Some apiKey
        /\ isValidApiKey apiKey = true
        /\ String.prefix (moviesDir config)
             (normalized_join (moviesDir config) apiKey) = true
        /\ normalized_join (moviesDir config) apiKey ∈ fs w
        /\ isDirectory (normalized_join (moviesDir config) apiKey) = true
        /\ attached = (if passApiKey then Some apiKey else None)
        /\ w' = w.
Proof.
  unfold validateApiKey, directoryExists, existsSync. run_unfold.
  destruct header as [apiKey|].
  - destruct (String.eqb apiKey "") eqn:Hempty.
    + split; [discriminate|].
      intros (k & [= <-] & Hkey & _).
      apply String.eqb_eq in Hempty. subst. discriminate.
    + destruct (isValidApiKey apiKey) eqn:Hkey; simpl.
      * destruct (String.prefix _ _) eqn:Hprefix; simpl.
        -- case_bool_decide as Hin; simpl.
           ++ destruct (isDirectory _) eqn:Hdir; simpl.
              ** split.
                 --- intros [= <- <-]. exists apiKey. auto 10.
                 --- intros (k & [= <-] & _ & _ & _ & _ & -> & ->). reflexivity.
              ** split; [discriminate|].
                 intros (k & [= <-] & _ & _ & _ & Hd & _). congruence.
           ++ split; [discriminate|].
              intros (k & [= <-] & _ & _ & Hin' & _). contradiction.
        -- split; [discriminate|].
           intros (k & [= <-] & _ & Hp & _). congruence.
      * split; [discriminate|].
        intros (k & [= <-] & Hk & _). congruence.
  - split; [discriminate|]. intros (k & [=] & _).
Qed.

(** X9: a missing or empty header and a key with a character outside
    letters and digits are answered 400 before the file system is looked
    at: the answer does not depend on the world or on the path
    normalisation, and the world is unchanged. *)
Theorem validateApiKey_rejects_early (passApiKey : bool) (header : option string)
        (w : World) :
  (header = None \/ header = Some "" ->
   middleware passApiKey header w
   = (Normal (Rejected (error_response 400 "Missing x-api-key header")), w))
  /\ (forall apiKey, header = Some apiKey -> apiKey <> "" ->
        isValidApiKey apiKey = false ->
        middleware passApiKey header w
        = (Normal (Rejected (error_response 400 "Invalid API key")), w)).
Proof.
  unfold validateApiKey. run_unfold. split.
  - intros [->| ->]; reflexivity.
  - intros apiKey -> Hne Hbad. apply String.eqb_neq in Hne.
    rewrite Hne, Hbad. reflexivity.
Qed.

End ApiKeyFacts.

(** ** routes/index.ts: the whole request *)

Section RequestFacts.

Variable config : Config.
Variable URL_new : string -> Completion URL.
Variable isUri : string -> bool.
Variable number_of_string : string -> option Q.
Variable env : HandlerEnv.

Local Abbreviation handler :=
  (create_video config URL_new isUri number_of_string env).
Local Abbreviation cached := (path_join (cacheDir config) (cache_filename env)).

(** X10: for a request that passes validation, when the download resolves
    with a non-JSON content type, the cached file is written, the probe
    exits with 0 and its output parses to a width and a height, and the
    queue accepts the job, the answer is 200 with the probed input size,
    the request's output size as sent, and the generated file name; exactly
    one job is added, holding the request, the probed size, the path of the
    cached file (which exists) and the output path under the movies
    directory. *)
Theorem create_video_success (data : JsObject) (input_url : string) (w : World)
        (contentType : option string) (stdout stderr : string)
        (inputWidth inputHeight : Z) :
  isValid (validateJson isUri number_of_string data) = true ->
  data !! "input_url" = Some (JStr input_url) ->
  isValidUrl config URL_new input_url = Normal true ->
  (forall webhook_url, data !! "webhook_url" = Some (JStr webhook_url) ->
     isValidUrl config URL_new webhook_url = Normal true) ->
  axios_get env input_url = GetResponse contentType ->
  is_json_content_type contentType = false ->
  write_stream env cached = WriteFinish ->
  ffprobe env [ "-v"; "error"; "-select_streams"; "v:0"; "-show_entries";
                "stream=width,height"; "-of"; "json"; cached ]
  = ProcessClose (Some 0) stdout stderr ->
  parse_dimensions env stdout = Normal (inputWidth, inputHeight) ->
  queue_add_error env = None ->
  exists job,
    fst (handler data w)
    = {| status := 200;
         body := VideoBody {|
           vr_record_id := data !! "record_id";
           vr_filename := output_filename env;
           vr_message := "Video processing started";
           vr_input_height := inputHeight;
           vr_input_width := inputWidth;
           vr_output_height := data !! "output_height";
           vr_output_width := data !! "output_width" |} |}
    /\ queue (snd (handler data w)) = queue w ++ [job]
    /\ job_name job = "createVideo"
    /\ pd_request (job_data job) = data
    /\ pd_input_width (job_data job) = inputWidth
    /\ pd_input_height (job_data job) = inputHeight
    /\ pd_cached_input_file (job_data job) = cached
    /\ pd_output_file (job_data job)
       = path_join (moviesDir config) (output_filename env)
    /\ cached ∈ fs (snd (handler data w)).
Proof.
  intros Hv Hin Hurl Hhook Hget Hjson Hwrite Hprobe Hparse Hadd.
  rewrite (create_video_accepted config URL_new isUri number_of_string env
             data w input_url Hv Hin Hurl Hhook).
  unfold download_and_enqueue, acquire, save_file, probe, enqueue_and_respond.
  run_unfold. rewrite Hget, Hjson.
  destruct (ensureDirectoryExists_returns URL_new isUri number_of_string (cacheDir config) w)
    as (files & -> & Hsub & _).
  rewrite Hwrite. cbn [skipn]. cbn [fst snd]. rewrite Hprobe.
  rewrite bool_decide_eq_true_2 by reflexivity.
  unfold try_catch. rewrite Hparse. cbn [fst snd].
  match goal with
  | |- context [ensureDirectoryExists (moviesDir config) ?w1] =>
      destruct (ensureDirectoryExists_returns URL_new isUri number_of_string (moviesDir config) w1)
        as (files' & -> & Hsub' & _)
  end.
  rewrite Hadd. simpl.
  eexists. split; [reflexivity|]. split; [reflexivity|].
  repeat (split; [reflexivity|]).
  simpl in Hsub'. set_solver.
Qed.

Lemma acquire_world (input_url : string) (w : World) :
  exists a w', acquire config env input_url w = (Normal a, w')
               /\ queue w' = queue w /\ posted w' = posted w /\ fs w ⊆ fs w'
               /\ (forall r, a = Returned r -> status r = 400).
Proof.
  unfold acquire, save_file, probe. run_unfold.
  assert (Hret : forall r msg, Returned (error_response 400 msg) = Returned r
                               -> status r = 400)
    by (intros r msg [= <-]; reflexivity).
  destruct (axios_get env input_url) as [e|contentType];
    [do 2 eexists; repeat split; eauto|].
  destruct (is_json_content_type contentType);
    [do 2 eexists; repeat split; eauto|].
  destruct (ensureDirectoryExists_returns URL_new isUri number_of_string (cacheDir config) w)
    as (files & -> & Hsub & _).
  destruct (write_stream env cached) as [|e []]; simpl;
    try (do 2 eexists; repeat split; eauto; simpl; set_solver).
  destruct (ffprobe env _) as [e|code out err]; simpl;
    try (do 2 eexists; repeat split; eauto; simpl; set_solver).
  case_bool_decide; simpl;
    try (do 2 eexists; repeat split; eauto; simpl; set_solver).
  destruct (parse_dimensions env out) as [[iw ih]|e]; simpl;
    do 2 eexists; repeat split; eauto; simpl; try set_solver.
Qed.

Lemma download_and_enqueue_world (data : JsObject) (input_url : string) (w : World) :
  exists c w',
    download_and_enqueue config env data input_url w = (c, w')
    /\ posted w' = posted w /\ fs w ⊆ fs w'
    /\ match c with
       | Normal r => status r = 200 \/ (status r = 400 /\ queue w' = queue w)
       | Throw _ => queue w' = queue w
       end.
Proof.
  unfold download_and_enqueue. run_unfold.
  destruct (acquire_world input_url w) as (a & w1 & -> & Hq & Hp & Hfs & Hst).
  destruct a as [r|cachedInputFile inputWidth inputHeight].
  - do 2 eexists. split; [reflexivity|]. repeat split; auto.
  - unfold enqueue_and_respond. run_unfold.
    destruct (ensureDirectoryExists_returns URL_new isUri number_of_string (moviesDir config) w1)
      as (files & -> & Hsub & _).
    destruct (queue_add_error env); simpl;
      do 2 eexists; (split; [reflexivity|]); simpl;
      (split; [exact Hp|]); (split; [set_solver|]); auto.
Qed.

(** Every run of the route ends in one of two ways: a 400 sent during
    validation with the world untouched, or the outcome of the download
    and enqueue step. *)
Lemma create_video_cases (P : Response * World -> Prop) (data : JsObject) (w : World) :
  (forall msg, P (error_response 400 msg, w)) ->
  (forall input_url,
     P match download_and_enqueue config env data input_url w with
       | (Normal r, w') => (r, w')
       | (Throw _, w') => (error_response 500 "Internal server error", w')
       end) ->
  P (handler data w).
Proof.
  intros Hstop Hnext.
  unfold create_video, create_video_body, webhook_url_rejected. run_unfold.
  destruct (isValid _); cbn [negb]; [|apply Hstop].
  destruct (data !! "input_url") as [[| | |u|]|]; try apply Hstop.
  destruct (isValidUrl_total config URL_new u) as [[] ->]; cbn [negb];
    [|apply Hstop].
  destruct (data !! "webhook_url") as [[| | |h|]|]; try apply Hnext.
  destruct (String.eqb h ""); [apply Hnext|].
  destruct (isValidUrl_total config URL_new h) as [[] ->]; cbn [negb];
    [apply Hnext|apply Hstop].
Qed.

(** X11: whatever the request and the collaborators do, the route answers
    200, 400 or 500; it never removes a file and never calls a webhook;
    and unless the answer is 200 the queue is left as it was. *)
Theorem create_video_world (data : JsObject) (w : World) :
  (status (fst (handler data w)) = 200
   \/ status (fst (handler data w)) = 400
   \/ status (fst (handler data w)) = 500)
  /\ fs w ⊆ fs (snd (handler data w))
  /\ posted (snd (handler data w)) = posted w
  /\ (status (fst (handler data w)) <> 200 ->
      queue (snd (handler data w)) = queue w).
Proof.
  apply (create_video_cases
           (fun res =>
              (status (fst res) = 200 \/ status (fst res) = 400
               \/ status (fst res) = 500)
              /\ fs w ⊆ fs (snd res)
              /\ posted (snd res) = posted w
              /\ (status (fst res) <> 200 -> queue (snd res) = queue w))).
  - intros msg. simpl. repeat split; auto.
  - intros u.
    destruct (download_and_enqueue_world data u w)
      as (c & w' & -> & Hp & Hfs & Hc).
    destruct c as [r|e]; simpl.
    + destruct Hc as [H200|[H400 Hq]]; repeat split; auto. contradiction.
    + repeat split; auto.
Qed.

End RequestFacts.

Section GuardedRoutes.

Variable config : Config.
Variable normalized_join : string -> string -> string.
Variable isDirectory : string -> bool.
Variable URL_new : string -> Completion URL.
Variable isUri : string -> bool.
Variable number_of_string : string -> option Q.
Variable env : HandlerEnv.

(** X12: when the API-key middleware answers a request itself, the answer
    is a 400, the same whether the key was to be attached or not, and both
    routes send exactly that answer with the world untouched: nothing is
    validated, downloaded or enqueued. *)
Theorem rejected_key_stops_request (passApiKey : bool) (header : option string)
        (data : JsObject) (w w' : World) (r : Response) :
  validateApiKey config normalized_join isDirectory passApiKey header w
  = (Normal (Rejected r), w') ->
  w' = w /\ status r = 400
  /\ post_create_video config normalized_join isDirectory URL_new isUri
       number_of_string env header data w = (Normal r, w)
  /\ api_validate config normalized_join isDirectory header w = (Normal (Sent r), w).
Proof.
  unfold post_create_video, api_validate, validateApiKey, directoryExists,
    existsSync.
  run_unfold.
  destruct header as [apiKey|]; [|intros [= <- <-]; auto].
  destruct (String.eqb apiKey ""); [intros [= <- <-]; auto|].
  destruct (negb (isValidApiKey apiKey)); [intros [= <- <-]; auto|].
  destruct (negb (String.prefix _ _)); [discriminate|]. simpl.
  destruct (bool_decide _ && isDirectory _); simpl.
  - destruct passApiKey; discriminate.
  - intros [= <- <-]. auto.
Qed.

End GuardedRoutes.

(** ** queue/index.ts: the worker, continued *)

Section WorkerWorld.

Variable config : Config.
Variable Number_toString : Q -> string.
Variable env : WorkerEnv.

Local Abbreviation task := (createVideoTask config Number_toString env).

(** X13: a job with an input or output dimension that is zero or negative
    fails with "Input and output dimensions must be positive integers"
    before anything happens: no process is started, no webhook is called
    and no file is touched. *)
Theorem createVideoTask_rejects_dimensions (data : VideoProcessingData) (w : World) :
  input_width data <= 0 \/ input_height data <= 0
  \/ output_width data <= 0 \/ output_height data <= 0 ->
  task data w
  = (Throw (Error "Input and output dimensions must be positive integers"), w).
Proof.
  intros Hdim. unfold createVideoTask.
  assert (Hguard : ((input_width data <=? 0) || (input_height data <=? 0)
                    || (output_width data <=? 0) || (output_height data <=? 0))%Z
                   = true).
  { rewrite !orb_true_iff, !Z.leb_le. tauto. }
  rewrite Hguard. reflexivity.
Qed.

(** X14: the webhook is called only after the encoder has exited with code
    0. When the encoder fails, the attempt ends with the encoder's error,
    no webhook call is made and no file is removed; when it succeeds and
    the job has a webhook URL, exactly one call is made, to that URL, with
    the record id and the address scheme://host:port/output_file. *)
Theorem webhook_only_after_render (data : VideoProcessingData) (w : World) :
  0 < input_width data -> 0 < input_height data ->
  0 < output_width data -> 0 < output_height data ->
  (forall e, ffmpeg env (skipn 1 (ffmpegCommand Number_toString data))
             = ProcessError e ->
     fst (task data w) = Throw e
     /\ posted (snd (task data w)) = posted w
     /\ fs (snd (task data w)) = fs w)
  /\ (forall code stdout stderr,
        ffmpeg env (skipn 1 (ffmpegCommand Number_toString data))
        = ProcessClose code stdout stderr ->
        code <> Some 0 ->
        fst (task data w)
        = Throw (Error ("FFmpeg failed with exit code " +:+ code_toString code
                        +:+ ": " +:+ stderr))
        /\ posted (snd (task data w)) = posted w
        /\ fs (snd (task data w)) = fs w)
  /\ (forall stdout stderr url,
        ffmpeg env (skipn 1 (ffmpegCommand Number_toString data))
        = ProcessClose (Some 0) stdout stderr ->
        webhook_url data = Some url -> url <> "" ->
        posted (snd (task data w))
        = posted w
          ++ [(url, {| wp_record_id := record_id data;
                       wp_filename :=
                         (scheme config +:+ "://" +:+ request_host data +:+ ":"
                          +:+ publicPort config) +:+ "/" +:+ output_file data |})]).
Proof.
  intros Hiw Hih How Hoh.
  rewrite (createVideoTask_steps config Number_toString env data w)
    by assumption.
  unfold render_and_notify, run_ffmpeg, call_webhook. run_unfold.
  cbn [fst snd].
  split; [|split].
  - intros e He. rewrite He. simpl. auto.
  - intros code stdout stderr Hclose Hcode. rewrite Hclose.
    rewrite bool_decide_eq_false_2 by exact Hcode. simpl. auto.
  - intros stdout stderr url Hclose Hurl Hne. rewrite Hclose, Hurl.
    rewrite bool_decide_eq_true_2 by reflexivity.
    apply String.eqb_neq in Hne. rewrite Hne. cbn [fst snd].
    destruct (axios_post env url _); [|reflexivity].
    match goal with
    | |- context [cleanup env data ?w1] =>
        destruct (cleanup_returns env data w1) as (files & -> & _)
    end.
    reflexivity.
Qed.


End WorkerWorld.

(** ** queue/index.ts: the filter chain, continued *)

Section FilterChainMore.

Variable Number_toString : Q -> string.




End FilterChainMore.

(** ** Runs on sample inputs *)


Lemma generateSecureRandomFilename_shape_witness :
  exists name,
    generateSecureRandomFilename sample_bytes 4 = name +:+ ".mp4"
    /\ String.length name = 4%nat
    /\ all_chars is_alnum name = true.
Proof.
  apply (generateSecureRandomFilename_shape sample_bytes 4).
  - simpl. lia.
  - repeat constructor; lia.
Defined.

Lemma validateJson_rejects_unknown_key_witness :
  isValid (validateJson sample_isUri sample_number_of_string
             (with_key "callback" (JStr "x") sample_request)) = false.
Proof.
  apply (validateJson_rejects_unknown_key sample_isUri sample_number_of_string
           (with_key "callback" (JStr "x") sample_request) "callback" (JStr "x")).
  - vm_compute. reflexivity.
  - simpl. intros H.
    repeat (destruct H as [H|H]; [discriminate H|]). exact H.
Defined.

Lemma validateJson_required_keys_witness :
  isValid (validateJson sample_isUri sample_number_of_string
             (delete "duration" sample_request)) = false
  /\ isValid (validateJson sample_isUri sample_number_of_string
                (delete "webhook_url" sample_request)) = true.
Proof.
  split.
  - apply (proj1 (validateJson_required_keys sample_isUri sample_number_of_string
                    (delete "duration" sample_request)) "duration").
    + simpl. tauto.
    + vm_compute. reflexivity.
  - apply (proj2 (validateJson_required_keys sample_isUri sample_number_of_string
                    sample_request)).
    vm_compute. reflexivity.
Defined.

Lemma accepted_request_fields_witness :
  exists s, sample_request !! "record_id" = Some (JStr s)
            /\ isValidRecordId s = true.
Proof.
  apply (accepted_request_fields sample_isUri sample_number_of_string
           sample_request).
  vm_compute. reflexivity.
Defined.

Lemma predicates_against_schema_witness :
  Joi.validate_value sample_isUri sample_number_of_string
    (Joi.number |> Joi.min (-100) |> Joi.max 100 |> Joi.required)
    (Some (JNum 50)) = None
  /\ Number_isInteger 5 = true.
Proof.
  split.
  - apply (proj1 (proj1 (predicates_against_schema sample_isUri
                           sample_number_of_string 50))).
    reflexivity.
  - apply (proj1 (proj2 (predicates_against_schema sample_isUri
                           sample_number_of_string 5))).
    reflexivity.
Defined.

Lemma isValidUrl_accepts_iff_witness :
  isValidUrl default_config sample_URL_new "https://example.com/a.png" = Normal true.
Proof.
  apply (proj2 (isValidUrl_accepts_iff default_config sample_URL_new
                  "https://example.com/a.png")).
  exists {| protocol := "https:"; hostname := "example.com" |}.
  split; [reflexivity|]. split; [right; reflexivity|].
  right. simpl. left. reflexivity.
Defined.

Lemma validateApiKey_next_iff_witness :
  validateApiKey default_config sample_normalized_join sample_isDirectory
    true (Some "testkey") movies_world
  = (Normal (Next (Some "testkey")), movies_world).
Proof.
  apply (proj2 (validateApiKey_next_iff default_config sample_normalized_join
                  sample_isDirectory true (Some "testkey") movies_world
                  movies_world (Some "testkey"))).
  exists "testkey".
  split; [reflexivity|]. split; [reflexivity|]. split; [reflexivity|].
  split; [unfold movies_world; simpl; set_solver|].
  split; [reflexivity|]. split; reflexivity.
Defined.

Lemma validateApiKey_rejects_early_witness :
  validateApiKey default_config sample_normalized_join sample_isDirectory
    true None movies_world
  = (Normal (Rejected (error_response 400 "Missing x-api-key header")), movies_world)
  /\ validateApiKey default_config sample_normalized_join sample_isDirectory
       true (Some "../etc") movies_world
     = (Normal (Rejected (error_response 400 "Invalid API key")), movies_world).
Proof.
  split.
  - apply (proj1 (validateApiKey_rejects_early default_config
                    sample_normalized_join sample_isDirectory true None
                    movies_world)).
    left. reflexivity.
  - apply (proj2 (validateApiKey_rejects_early default_config
                    sample_normalized_join sample_isDirectory true
                    (Some "../etc") movies_world) "../etc").
    + reflexivity.
    + discriminate.
    + reflexivity.
Defined.

Lemma create_video_success_witness :
  let env :=
    sample_handler_env (GetResponse (Some "image/png")) WriteFinish
      (ProcessClose (Some 0) "{}" "") in
  exists job,
    fst (create_video default_config sample_URL_new sample_isUri
           sample_number_of_string env sample_request empty_world)
    = {| status := 200;
         body := VideoBody {|
           vr_record_id := Some (JStr "rec42");
           vr_filename := "bbbbbbbbbbbbbbbb.mp4";
           vr_message := "Video processing started";
           vr_input_height := 600;
           vr_input_width := 800;
           vr_output_height := Some (JNum 400);
           vr_output_width := Some (JNum 400) |} |}
    /\ queue (snd (create_video default_config sample_URL_new sample_isUri
                     sample_number_of_string env sample_request empty_world))
       = [job]
    /\ pd_cached_input_file (job_data job) = "cache/aaaaaaaaaaaaaaaa.mp4"
    /\ pd_output_file (job_data job) = "movies/bbbbbbbbbbbbbbbb.mp4".
Proof.
  intros env.
  destruct sample_request_accepted as (Hv & Hin & Hurl & Hhook).
  destruct (create_video_success default_config sample_URL_new sample_isUri
              sample_number_of_string env sample_request
              "https://example.com/a.png" empty_world (Some "image/png")
              "{}" "" 800 600 Hv Hin Hurl Hhook eq_refl eq_refl eq_refl
              eq_refl eq_refl eq_refl)
    as (job & Hresp & Hqueue & _ & _ & _ & _ & Hcached & Houtput & _).
  exists job. split; [exact Hresp|]. split; [exact Hqueue|].
  split; [exact Hcached|exact Houtput].
Defined.

Lemma create_video_world_witness :
  let res :=
    create_video default_config sample_URL_new sample_isUri
      sample_number_of_string
      (sample_handler_env (GetResponse (Some "image/png")) WriteFinish
         (ProcessClose (Some 1) "" "Invalid data found"))
      sample_request empty_world in
  queue (snd res) = queue empty_world.
Proof.
  intros res.
  apply (proj2 (proj2 (proj2 (create_video_world default_config sample_URL_new
           sample_isUri sample_number_of_string
           (sample_handler_env (GetResponse (Some "image/png")) WriteFinish
              (ProcessClose (Some 1) "" "Invalid data found"))
           sample_request empty_world)))).
  vm_compute. discriminate.
Defined.

Lemma rejected_key_stops_request_witness :
  post_create_video default_config sample_normalized_join sample_isDirectory
    sample_URL_new sample_isUri sample_number_of_string
    (sample_handler_env (GetResponse (Some "image/png")) WriteFinish
       (ProcessClose (Some 0) "{}" ""))
    (Some "nokey") sample_request movies_world
  = (Normal (error_response 400 "Directory does not exist"), movies_world).
Proof.
  apply (rejected_key_stops_request default_config sample_normalized_join
           sample_isDirectory sample_URL_new sample_isUri sample_number_of_string
           (sample_handler_env (GetResponse (Some "image/png")) WriteFinish
              (ProcessClose (Some 0) "{}" ""))
           true (Some "nokey") sample_request movies_world movies_world
           (error_response 400 "Directory does not exist")).
  vm_compute. reflexivity.
Defined.

Lemma createVideoTask_rejects_dimensions_witness :
  createVideoTask default_config sample_Number_toString
    (sample_worker_env 0 true false)
    (sample_job_with true 0 0 600 400 400) cached_world
  = (Throw (Error "Input and output dimensions must be positive integers"),
     cached_world).
Proof.
  apply (createVideoTask_rejects_dimensions default_config sample_Number_toString
           (sample_worker_env 0 true false)
           (sample_job_with true 0 0 600 400 400) cached_world).
  left. simpl. lia.
Defined.

Lemma webhook_only_after_render_witness :
  posted (snd (createVideoTask default_config sample_Number_toString
                 (sample_worker_env 1 true false) sample_job cached_world))
  = []
  /\ posted (snd (createVideoTask default_config sample_Number_toString
                    sample_worker_env_spawn_error sample_job cached_world))
     = []
  /\ posted (snd (createVideoTask default_config sample_Number_toString
                    (sample_worker_env 0 true false) sample_job cached_world))
     = [("https://trusted.com/hook",
         {| wp_record_id := "rec42";
            wp_filename := "https://api.example.com:80/movies/bbbbbbbbbbbbbbbb.mp4" |})].
Proof.
  split; [|split].
  - apply (proj1 (proj2 (webhook_only_after_render default_config
             sample_Number_toString (sample_worker_env 1 true false) sample_job
             cached_world ltac:(simpl; lia) ltac:(simpl; lia)
             ltac:(simpl; lia) ltac:(simpl; lia))) (Some 1) "" "boom").
    + reflexivity.
    + discriminate.
  - apply (proj1 (webhook_only_after_render default_config
             sample_Number_toString sample_worker_env_spawn_error sample_job
             cached_world ltac:(simpl; lia) ltac:(simpl; lia)
             ltac:(simpl; lia) ltac:(simpl; lia))
             (Error "spawn ffmpeg ENOENT")).
    reflexivity.
  - apply (proj2 (proj2 (webhook_only_after_render default_config
             sample_Number_toString (sample_worker_env 0 true false) sample_job
             cached_world ltac:(simpl; lia) ltac:(simpl; lia)
             ltac:(simpl; lia) ltac:(simpl; lia)))
             "" "boom" "https://trusted.com/hook").
    + reflexivity.
    + reflexivity.
    + discriminate.
Defined.




(** ** utils/index.ts: directories *)

